(** * AnimalShelter: a repository-style CRUD wrapper over a document collection

    Shallow embedding of [AnimalShelter_enhanced.py] (class [AnimalShelter]).
    The Python methods become computations in a small state-and-exception
    monad over a [World] that holds

    - the Python dict objects the caller passes in (a heap of dicts, so that
      in-place mutation of an argument is visible to the caller),
    - the primary collection [self.collection] and the audit collection
      [self.audits] of the database collaborator,
    - the records emitted on the module logger,
    - the wall clock read by [_utcnow].

    The collaborator (pymongo and the server behind it) is not part of the
    repository.  Its filter, projection and ordering semantics and the
    effect of [$set] are kept abstract in the class [Collaborator]; the
    collection operations the wrapper calls are modelled over a list of
    documents. *)

From stdpp Require Import gmap strings list fin_maps pretty sorting.

(** ** Values, documents, Python arguments *)

(** Field values of a document: the scalar values.  [VTime] is a
    [datetime], an instant on the UTC time line; [VOid] is an [ObjectId].
    [VInt] is an integer the driver can encode, one that fits in 64 bits:
    for a larger one the driver's encoder raises [OverflowError] before
    anything is sent, a case that lies outside these documents. *)
Inductive Value :=
  | VNone
  | VBool (b : bool)
  | VInt (z : Z)
  | VStr (s : string)
  | VTime (t : Z)
  | VOid (n : N).

Global Instance Value_eq_dec : EqDecision Value.
Proof. solve_decision. Defined.

Global Instance Value_inhabited : Inhabited Value := populate VNone.

(** A document (and every Python dict with string keys used here). *)
Abbreviation Doc := (gmap string Value).

(** What a caller can pass where the signature says [Dict] or [Any]: Python
    does not enforce annotations.  A dict is passed by reference. *)
Inductive PyObj :=
  | PyNone
  | PyBool (b : bool)
  | PyInt (z : Z)
  | PyStr (s : string)
  | PyList (items : list Value)
  | PyDict (ref : nat).

(** [str(v)] *)
Definition py_str (v : Value) : string :=
  match v with
  | VNone => "None"
  | VBool true => "True"
  | VBool false => "False"
  | VInt z => pretty z
  | VStr s => s
  | VTime t => pretty t
  | VOid n => pretty n
  end.

(** Truth value of an object, as tested by [if v] *)
Definition py_truthy (v : Value) : bool :=
  match v with
  | VNone => false
  | VBool b => b
  | VInt z => negb (Z.eqb z 0)
  | VStr s => negb (String.eqb s "")
  | VTime _ => true
  | VOid _ => true
  end.

(** [bool(d)] for a dict: false exactly for the empty dict *)
Definition dict_truthy (d : Doc) : bool := negb (bool_decide (d = ∅)).

(** ** The collaborator's query and update semantics

    Filters, projections, the comparison order used by [sort] and the
    effect of [$set] are interpreted by the database, not by the wrapper.
    Only what the wrapper relies on is fixed here. *)

(** The top-level field a key of [{"$set": ..}] addresses: the key itself,
    or, for a dotted path such as [name.first], what stands before the
    first dot. *)
Definition field_root (path : string) : string :=
  match String.index 0 "." path with
  | Some n => String.substring 0 n path
  | None => path
  end.

Class Collaborator := {
  (** does a stored document satisfy a filter *)
  matches : Doc → Doc → bool;
  (** the empty filter selects every document *)
  matches_empty : ∀ d, matches ∅ d = true;
  (** the view of a document under a projection *)
  project : Doc → Doc → Doc;
  (** a projection that includes one field keeps that field as stored *)
  project_included : ∀ f d, project {[ f := VInt 1 ]} d !! f = d !! f;
  (** the document an upsert starts from: the filter's equality clauses *)
  upsert_seed : Doc → Doc;
  (** the error with which the server refuses [{"$set": nv}] outright,
      whatever is stored (an empty name, two keys in conflict), if it
      does *)
  set_refused : Doc → option string;
  (** [{"$set": nv}] on one document: the write error with which the
      server refuses it there (a path it cannot apply to this document),
      if it does, and the document after it otherwise *)
  set_error : Doc → Doc → option string;
  apply_set : Doc → Doc → Doc;
  (** a key that is a field name, not a path, sets that field *)
  apply_set_named : ∀ nv d k v,
    set_error nv d = None → field_root k = k → nv !! k = Some v →
    apply_set nv d !! k = Some v;
  (** a top-level field that no key addresses stays as it is *)
  apply_set_frame : ∀ nv d k,
    set_error nv d = None → (∀ k', is_Some (nv !! k') → field_root k' ≠ k) →
    apply_set nv d !! k = d !! k;
  (** comparison order on sort keys (a missing field is [None]) *)
  key_le : option Value → option Value → bool;
  key_le_total : ∀ a b, key_le a b = true ∨ key_le b a = true;
  key_le_trans : ∀ a b c, key_le a b = true → key_le b c = true → key_le a c = true;
}.

(** ** State of the world *)

(** The primary collection as seen through one handle. *)
Record Collection := mkCollection {
  docs : list Doc;
  (** the server answers; otherwise every request raises [PyMongoError] *)
  reachable : bool;
  (** write concern of the handle: are writes acknowledged *)
  write_ack : bool;
}.

(** The document [_audit] builds: [{"action": .., "details": .., "ts": ..}] *)
Record AuditEntry := mkAuditEntry {
  action : string;
  details : Doc;
  ts : Z;
}.

Record AuditCollection := mkAuditCollection {
  entries : list AuditEntry;
  audit_reachable : bool;
}.

Inductive Level := INFO | WARNING | ERROR.

(** A lazy pymongo cursor: nothing is sent before it is iterated. *)
Record Cursor := mkCursor {
  c_filter : Doc;
  c_projection : option Doc;
  c_sort : option (string * Z);
  c_limit : Z;
}.

(** Requests sent to the collaborator, in order. *)
Inductive Request :=
  | ReqInsertOne (d : Doc)
  | ReqUpdateMany (q nv : Doc) (upsert : bool)
  | ReqDeleteMany (q : Doc)
  | ReqFind (c : Cursor)
  | ReqEstimatedCount
  | ReqCountDocuments (q : Doc)
  | ReqAuditInsert (e : AuditEntry).

Record World := mkWorld {
  (** Python dict objects, by reference *)
  heap : gmap nat Doc;
  (** [self.collection] *)
  collection : Collection;
  (** [self.audits] *)
  audits : AuditCollection;
  (** records emitted on [_logger] *)
  logged : list (Level * string);
  (** lines written by [print] *)
  printed : list string;
  (** requests that reached the collaborator *)
  requests : list Request;
  (** successive readings of the UTC clock, and how many were taken *)
  wall : nat → Z;
  ticks : nat;
  (** offset of the local time zone, for naive local time stamps *)
  utc_offset : Z;
  (** ObjectId generator *)
  next_oid : N;
}.

Definition set_heap (h : gmap nat Doc) (w : World) : World :=
  mkWorld h (collection w) (audits w) (logged w) (printed w) (requests w)
    (wall w) (ticks w) (utc_offset w) (next_oid w).
Definition set_collection (c : Collection) (w : World) : World :=
  mkWorld (heap w) c (audits w) (logged w) (printed w) (requests w)
    (wall w) (ticks w) (utc_offset w) (next_oid w).
Definition set_audits (a : AuditCollection) (w : World) : World :=
  mkWorld (heap w) (collection w) a (logged w) (printed w) (requests w)
    (wall w) (ticks w) (utc_offset w) (next_oid w).
Definition set_logged (l : list (Level * string)) (w : World) : World :=
  mkWorld (heap w) (collection w) (audits w) l (printed w) (requests w)
    (wall w) (ticks w) (utc_offset w) (next_oid w).
Definition set_printed (l : list string) (w : World) : World :=
  mkWorld (heap w) (collection w) (audits w) (logged w) l (requests w)
    (wall w) (ticks w) (utc_offset w) (next_oid w).
Definition set_requests (r : list Request) (w : World) : World :=
  mkWorld (heap w) (collection w) (audits w) (logged w) (printed w) r
    (wall w) (ticks w) (utc_offset w) (next_oid w).
Definition set_ticks (n : nat) (w : World) : World :=
  mkWorld (heap w) (collection w) (audits w) (logged w) (printed w) (requests w)
    (wall w) n (utc_offset w) (next_oid w).
Definition set_next_oid (n : N) (w : World) : World :=
  mkWorld (heap w) (collection w) (audits w) (logged w) (printed w) (requests w)
    (wall w) (ticks w) (utc_offset w) n.

Definition set_docs (ds : list Doc) (c : Collection) : Collection :=
  mkCollection ds (reachable c) (write_ack c).

(** ** Exceptions and the monad *)

(** The exceptions raised here, by class: [ValueError], [PyMongoError] (with
    its subclasses), and [Exception] itself. *)
Inductive Exn :=
  | ValueError (msg : string)
  | PyMongoError (msg : string)
  | Exception (msg : string).

(** [str(exc)] *)
Definition str_exn (e : Exn) : string :=
  match e with
  | ValueError msg => msg
  | PyMongoError msg => msg
  | Exception msg => msg
  end.

Inductive Outcome (A : Type) :=
  | Return (a : A)
  | Raise (e : Exn).
Arguments Return {A} a.
Arguments Raise {A} e.

Definition Py (A : Type) : Type := World → Outcome A * World.

Definition ret {A} (a : A) : Py A := λ w, (Return a, w).
Definition raise {A} (e : Exn) : Py A := λ w, (Raise e, w).
Definition bind {A B} (m : Py A) (k : A → Py B) : Py B :=
  λ w, match m w with
       | (Return a, w') => k a w'
       | (Raise e, w') => (Raise e, w')
       end.
(** [try: m  except ... as exc: h exc] *)
Definition try_except {A} (m : Py A) (h : Exn → Py A) : Py A :=
  λ w, match m w with
       | (Return a, w') => (Return a, w')
       | (Raise e, w') => h e w'
       end.

Notation "'let*' x ':=' m 'in' k" := (bind m (λ x, k))
  (at level 10, x name, m at level 100, k at level 200).
Notation "m1 '>>' m2" := (bind m1 (λ _, m2))
  (at level 100, m2 at level 200, right associativity).

Definition gets {A} (f : World → A) : Py A := λ w, (Return (f w), w).
Definition modify (f : World → World) : Py unit := λ w, (Return tt, f w).

(** ** Primitive effects *)

(** [_logger.<level>(msg)] *)
Definition log (lvl : Level) (msg : string) : Py unit :=
  modify (λ w, set_logged (logged w ++ [(lvl, msg)]) w).

(** [print(line)] *)
Definition print (line : string) : Py unit :=
  modify (λ w, set_printed (printed w ++ [line]) w).

(** the contents of the dict object at reference [l] *)
Definition getdict (l : nat) : Py Doc := gets (λ w, heap w !!! l).

(** [d[k] = v] on the dict object at reference [l] *)
Definition setitem (l : nat) (k : string) (v : Value) : Py unit :=
  modify (λ w, set_heap (<[l := <[k := v]> (heap w !!! l)]> (heap w)) w).

(** [ObjectId()] *)
Definition fresh_oid : Py Value :=
  λ w, (Return (VOid (next_oid w)), set_next_oid (N.succ (next_oid w)) w).

Definition send (r : Request) : Py unit :=
  modify (λ w, set_requests (requests w ++ [r]) w).

(** ** The collection operations the wrapper calls *)

Module Mongo.
Section Operations.
Context `{C : Collaborator}.

Definition server_down : Exn := PyMongoError "ServerSelectionTimeoutError".

Record InsertOneResult := mkInsertOneResult {
  i_acknowledged : bool;
  inserted_id : Value;
}.

Record UpdateResult := mkUpdateResult {
  u_acknowledged : bool;
  u_matched : nat;
  u_modified : nat;
  u_upserted : option Value;
}.

Record DeleteResult := mkDeleteResult {
  d_acknowledged : bool;
  d_deleted : nat;
}.

(** The count properties of a write result are not available for an
    unacknowledged write: reading one raises [InvalidOperation], a
    [PyMongoError]. *)
Definition unacknowledged (property : string) : Exn :=
  PyMongoError ("A value for " +:+ property +:+
                " is not available when the write is unacknowledged." +:+
                " Check the acknowledged attribute to avoid this error.").

Definition matched_count (r : UpdateResult) : Py nat :=
  if u_acknowledged r then ret (u_matched r) else raise (unacknowledged "matched_count").
Definition modified_count (r : UpdateResult) : Py nat :=
  if u_acknowledged r then ret (u_modified r) else raise (unacknowledged "modified_count").
Definition upserted_id (r : UpdateResult) : Py (option Value) :=
  if u_acknowledged r then ret (u_upserted r) else raise (unacknowledged "upserted_id").
Definition deleted_count (r : DeleteResult) : Py nat :=
  if d_acknowledged r then ret (d_deleted r) else raise (unacknowledged "deleted_count").

(** some stored document already carries this [_id] *)
Definition id_taken (id : Value) (ds : list Doc) : bool :=
  bool_decide (Exists (λ d, d !! "_id" = Some id) ds).

(** [collection.insert_one(doc)]: the driver adds an [_id] to the caller's
    dict when it has none, then sends the document. *)
Definition insert_one (doc : nat) : Py InsertOneResult :=
  let* d := getdict doc in
  let* id := match d !! "_id" with
             | Some v => ret v
             | None => let* oid := fresh_oid in
                       setitem doc "_id" oid >> ret oid
             end in
  let* d' := getdict doc in
  send (ReqInsertOne d') >>
  let* c := gets collection in
  if negb (reachable c) then raise server_down
  else if id_taken id (docs c) then raise (PyMongoError "DuplicateKeyError")
  else
    modify (set_collection (set_docs (docs c ++ [d']) c)) >>
    ret (mkInsertOneResult (write_ack c) id).

(** [$set] may not change the [_id] of a stored document *)
Definition changes_id (nv d : Doc) : Prop :=
  is_Some (nv !! "_id") ∧ nv !! "_id" ≠ d !! "_id".

Global Instance changes_id_dec nv d : Decision (changes_id nv d).
Proof. unfold changes_id. apply _. Defined.

(** the write error for [{"$set": nv}] on one stored document, if any *)
Definition write_error (nv d : Doc) : option string :=
  if decide (changes_id nv d) then Some "WriteError: the _id field is immutable"
  else set_error nv d.

(** The server goes through the stored documents in order and applies
    [{"$set": nv}] to those that satisfy the filter.  It stops at the first
    one it has to refuse: the documents before that one stay updated, and
    the write error is reported. *)
Fixpoint set_matching (q nv : Doc) (ds : list Doc) : list Doc * option string :=
  match ds with
  | [] => ([], None)
  | d :: rest =>
      if matches q d then
        match write_error nv d with
        | Some msg => (d :: rest, Some msg)
        | None => let r := set_matching q nv rest in (apply_set nv d :: r.1, r.2)
        end
      else let r := set_matching q nv rest in (d :: r.1, r.2)
  end.

(** [collection.update_many(q, {"$set": nv}, upsert=upsert)] *)
Definition update_many (q nv : Doc) (upsert : bool) : Py UpdateResult :=
  send (ReqUpdateMany q nv upsert) >>
  let* c := gets collection in
  if negb (reachable c) then raise server_down
  else
    match set_refused nv with
    | Some msg => raise (PyMongoError msg)
    | None =>
        let hit := filter (λ d, matches q d) (docs c) in
        match hit, upsert with
        | [], true =>
            match set_error nv (upsert_seed q) with
            | Some msg => raise (PyMongoError msg)
            | None =>
                let seed := apply_set nv (upsert_seed q) in
                let* id := match seed !! "_id" with
                           | Some v => ret v
                           | None => fresh_oid
                           end in
                if id_taken id (docs c) then raise (PyMongoError "DuplicateKeyError")
                else
                  modify (set_collection (set_docs (docs c ++ [<["_id" := id]> seed]) c)) >>
                  ret (mkUpdateResult (write_ack c) 0 0 (Some id))
            end
        | _, _ =>
            let r := set_matching q nv (docs c) in
            modify (set_collection (set_docs r.1 c)) >>
            match r.2 with
            | Some msg => raise (PyMongoError msg)
            | None =>
                ret (mkUpdateResult (write_ack c) (length hit)
                       (length (filter (λ d, apply_set nv d ≠ d) hit)) None)
            end
        end
    end.

(** [collection.delete_many(q)] *)
Definition delete_many (q : Doc) : Py DeleteResult :=
  send (ReqDeleteMany q) >>
  let* c := gets collection in
  if negb (reachable c) then raise server_down
  else
    modify (set_collection (set_docs (filter (λ d, ¬ matches q d) (docs c)) c)) >>
    ret (mkDeleteResult (write_ack c) (length (filter (λ d, matches q d) (docs c)))).

(** [collection.count_documents(q)] *)
Definition count_documents (q : Doc) : Py nat :=
  send (ReqCountDocuments q) >>
  let* c := gets collection in
  if negb (reachable c) then raise server_down
  else ret (length (filter (λ d, matches q d) (docs c))).

(** [collection.estimated_document_count()] *)
Definition estimated_document_count : Py nat :=
  send ReqEstimatedCount >>
  let* c := gets collection in
  if negb (reachable c) then raise server_down else ret (length (docs c)).

(** [collection.find(q, projection)], [cursor.sort(f, o)], [cursor.limit(n)] *)
Definition find (q : Doc) (projection : option Doc) : Cursor :=
  mkCursor q projection None 0.
Definition sort (f : string) (o : Z) (c : Cursor) : Cursor :=
  mkCursor (c_filter c) (c_projection c) (Some (f, o)) (c_limit c).
Definition limit (n : Z) (c : Cursor) : Cursor :=
  mkCursor (c_filter c) (c_projection c) (c_sort c) n.

(** order of two documents under [sort(f, 1)] *)
Definition key_asc (f : string) : relation Doc :=
  λ d1 d2, key_le (d1 !! f) (d2 !! f).
(** and under [sort(f, -1)] *)
Definition key_desc (f : string) : relation Doc :=
  λ d1 d2, key_le (d2 !! f) (d1 !! f).

(** the documents a cursor ranges over, once ordered *)
Definition ordered (s : option (string * Z)) (ds : list Doc) : Outcome (list Doc) :=
  match s with
  | None => Return ds
  | Some (f, o) =>
      if bool_decide (o = 1%Z) then Return (merge_sort (key_asc f) ds)
      else if bool_decide (o = (-1)%Z) then Return (merge_sort (key_desc f) ds)
      else Raise (PyMongoError "OperationFailure: bad sort specification")
  end.

(** a limit of 0 is no limit *)
Definition limited (n : Z) (ds : list Doc) : list Doc :=
  if bool_decide (0 < n)%Z then take (Z.to_nat n) ds else ds.

Definition projected (p : option Doc) (ds : list Doc) : list Doc :=
  match p with
  | Some p => project p <$> ds
  | None => ds
  end.

(** [list(cursor)]: the query is sent, the server filters, orders, cuts and
    projects, and the driver materialises the answer. *)
Definition list_cursor (cur : Cursor) : Py (list Doc) :=
  send (ReqFind cur) >>
  let* c := gets collection in
  if negb (reachable c) then raise server_down
  else
    match ordered (c_sort cur) (filter (λ d, matches (c_filter cur) d) (docs c)) with
    | Raise e => raise e
    | Return ds => ret (projected (c_projection cur) (limited (c_limit cur) ds))
    end.

(** [audits.insert_one(doc)] *)
Definition audits_insert_one (e : AuditEntry) : Py unit :=
  send (ReqAuditInsert e) >>
  let* a := gets audits in
  if negb (audit_reachable a) then raise server_down
  else modify (set_audits (mkAuditCollection (entries a ++ [e]) (audit_reachable a))).

End Operations.
End Mongo.

(** ** The wrapper: class [AnimalShelter] *)

Module AnimalShelter.
Import Mongo.
Section Methods.
Context `{C : Collaborator}.

(** [datetime.now(timezone.utc)] *)
Definition _utcnow : Py Z :=
  λ w, (Return (wall w (ticks w)), set_ticks (S (ticks w)) w).

(** [_audit]: best effort; every exception of the write is caught and
    logged. *)
Definition _audit (action : string) (details : Doc) : Py unit :=
  let* now := _utcnow in
  let doc := mkAuditEntry action details now in
  try_except (audits_insert_one doc)
    (λ exc, log WARNING ("audit_failed action=" +:+ action +:+ " error=" +:+ str_exn exc)).

(** [_require_dict(value, name, allow_empty)]: returns the object it was
    given. *)
Definition _require_dict (value : PyObj) (name : string) (allow_empty : bool) : Py nat :=
  match value with
  | PyDict l =>
      let* d := getdict l in
      if negb allow_empty && negb (dict_truthy d)
      then raise (ValueError (name +:+ " must be a non-empty dict"))
      else ret l
  | _ => raise (ValueError (name +:+ " must be a dict"))
  end.

(** [[f for f in required if f not in data]] *)
Definition missing_fields (d : Doc) (required : list string) : list string :=
  filter (λ f, d !! f = None) required.

Definition _validate_required_fields (data : nat) (required : list string) : Py unit :=
  let* d := getdict data in
  match missing_fields d required with
  | [] => ret tt
  | missing => raise (ValueError ("missing required field(s): " +:+ String.concat ", " missing))
  end.

(** [except (ValueError, PyMongoError) as exc: _logger.error(..); raise] *)
Definition logged_as {A} (tag : string) (m : Py A) : Py A :=
  try_except m (λ exc,
    match exc with
    | ValueError _ | PyMongoError _ =>
        log ERROR (tag +:+ " error=" +:+ str_exn exc) >> raise exc
    | Exception _ => raise exc
    end).

(** the value of an [Optional[str]] argument inside a dict *)
Definition opt_str (a : option string) : Value :=
  match a with
  | Some s => VStr s
  | None => VNone
  end.

Definition required_fields : list string := ["animal_id"; "animal_type"; "breed"].

Definition create (data : PyObj) (actor : option string) : Py Doc :=
  logged_as "create_failed" (
    let* doc := _require_dict data "data" false in
    _validate_required_fields doc required_fields >>
    let* now := _utcnow in
    setitem doc "created_timestamp" (VTime now) >>
    let* res := insert_one doc in
    let out : Doc := {[ "ok" := VBool (i_acknowledged res);
                        "inserted_id" := VStr (py_str (inserted_id res)) ]} in
    _audit "CREATE" {[ "actor" := opt_str actor; "inserted_id" := out !!! "inserted_id" ]} >>
    ret out).

Definition read (query projection : PyObj) (limit_ : Z)
    (sort_field : option string) (sort_order : Z) : Py (list Doc) :=
  logged_as "read_failed" (
    let* q := match query with
              | PyNone => ret ∅
              | _ => let* l := _require_dict query "query" true in getdict l
              end in
    let* cur := match projection with
                | PyDict p => let* pd := getdict p in ret (find q (Some pd))
                | _ => ret (find q None)
                end in
    let cur := match sort_field with
               | Some f => if negb (String.eqb f "") then sort f sort_order cur else cur
               | None => cur
               end in
    let cur := if negb (Z.eqb limit_ 0) && Z.ltb 0 limit_ then limit limit_ cur else cur in
    let* results := list_cursor cur in
    log INFO ("read count=" +:+ pretty (length results)) >>
    ret results).

Definition update (query new_values : PyObj) (upsert : bool) (actor : option string) : Py Doc :=
  logged_as "update_failed" (
    let* q := _require_dict query "query" false in
    let* nv := _require_dict new_values "new_values" false in
    let* now := _utcnow in
    setitem nv "last_modified_timestamp" (VTime now) >>
    let* qd := getdict q in
    let* nvd := getdict nv in
    let* res := update_many qd nvd upsert in
    let* matched := matched_count res in
    let* modified := modified_count res in
    let* up := upserted_id res in
    let out : Doc := {[ "ok" := VBool (u_acknowledged res);
                        "matched" := VInt (Z.of_nat matched);
                        "modified" := VInt (Z.of_nat modified);
                        "upserted_id" := match up with
                                         | Some id => if py_truthy id then VStr (py_str id) else VNone
                                         | None => VNone
                                         end ]} in
    _audit "UPDATE" {[ "actor" := opt_str actor;
                       "matched" := out !!! "matched";
                       "modified" := out !!! "modified" ]} >>
    ret out).

Definition delete (query : PyObj) (actor : option string) (confirm_delete : bool) : Py Doc :=
  logged_as "delete_failed" (
    let* q := _require_dict query "query" false in
    let* qd := getdict q in
    (if negb (dict_truthy qd) && confirm_delete
     then raise (ValueError "refusing to delete all documents; pass confirm_delete=False to override")
     else ret tt) >>
    let* res := delete_many qd in
    let* deleted := deleted_count res in
    let out : Doc := {[ "ok" := VBool (d_acknowledged res);
                        "deleted" := VInt (Z.of_nat deleted) ]} in
    _audit "DELETE" {[ "actor" := opt_str actor; "deleted" := out !!! "deleted" ]} >>
    ret out).

(** [except PyMongoError as exc: _logger.error(..); raise] *)
Definition logged_db_as {A} (tag : string) (m : Py A) : Py A :=
  try_except m (λ exc,
    match exc with
    | PyMongoError _ => log ERROR (tag +:+ " error=" +:+ str_exn exc) >> raise exc
    | ValueError _ | Exception _ => raise exc
    end).

Definition stats : Py Doc :=
  logged_db_as "stats_failed" (
    let* count := estimated_document_count in
    let latest := limit 1 (sort "created_timestamp" (-1)
                    (find ∅ (Some {[ "created_timestamp" := VInt 1 ]}))) in
    let* found := list_cursor latest in
    let latest_ts := default ∅ (head found) !! "created_timestamp" in
    ret {[ "count" := VInt (Z.of_nat count);
           "latest_created_timestamp" := default VNone latest_ts ]}).

End Methods.
End AnimalShelter.

(** ** The first version of the wrapper: [AnimalShelter.py]

    The class the enhanced one was rewritten from.  It validates before its
    [try] blocks, raises plain [Exception]s, wraps whatever its [try] blocks
    raise into a new [Exception], prints instead of logging, writes no audit
    trail, and stamps naive local time. *)

Module Original.
Import Mongo.
Section Methods.
Context `{C : Collaborator}.

(** [datetime.now()] *)
Definition datetime_now : Py Z :=
  λ w, (Return (wall w (ticks w) + utc_offset w)%Z, set_ticks (S (ticks w)) w).

(** truth value of an argument, as tested by [if not x] *)
Definition truthy (o : PyObj) : Py bool :=
  match o with
  | PyNone => ret false
  | PyBool b => ret b
  | PyInt z => ret (negb (Z.eqb z 0))
  | PyStr s => ret (negb (String.eqb s ""))
  | PyList items => ret (match items with [] => false | _ => true end)
  | PyDict l => let* d := getdict l in ret (dict_truthy d)
  end.

(** [except Exception as e: raise Exception(f"<op> failed: {str(e)}")] *)
Definition wrapped {A} (op : string) (m : Py A) : Py A :=
  try_except m (λ e, raise (Exception (op +:+ " failed: " +:+ str_exn e))).

(** a list of strings inside an f-string: [['a', 'b']] *)
Definition repr_list (l : list string) : string :=
  "[" +:+ String.concat ", " ((λ f, "'" +:+ f +:+ "'") <$> l) +:+ "]".

Definition create (data : PyObj) : Py bool :=
  let* t := truthy data in
  if negb t
  then raise (Exception "Create operation failed: 'data' parameter is empty or None")
  else
    match data with
    | PyDict l =>
        let* d := getdict l in
        match filter (λ f, d !! f = None) ["animal_id"; "animal_type"; "breed"] with
        | [] =>
            wrapped "Create operation" (
              let* now := datetime_now in
              setitem l "created_timestamp" (VTime now) >>
              let* insert_result := insert_one l in
              if i_acknowledged insert_result
              then
                let* d := getdict l in
                print ("Successfully created record for animal_id: " +:+
                       py_str (default (VStr "Unknown") (d !! "animal_id"))) >>
                ret true
              else
                print "Create operation was not acknowledged by database" >>
                ret false)
        | missing =>
            raise (Exception ("Create operation failed: Missing required fields: " +:+
                              repr_list missing))
        end
    | _ => raise (Exception "Create operation failed: 'data' parameter must be a dictionary")
    end.

Definition read (query projection : PyObj) (limit_ : Z)
    (sort_field : option string) (sort_order : Z) : Py (list Doc) :=
  wrapped "Read operation" (
    let* q := match query with
              | PyNone => ret ∅
              | PyDict l => getdict l
              | _ => raise (Exception
                              "Read operation failed: 'query' parameter must be a dictionary")
              end in
    let cursor := find q None in
    let* given := truthy projection in
    let* cursor := match projection with
                   | PyDict p =>
                       if given
                       then let* pd := getdict p in ret (find q (Some pd))
                       else ret cursor
                   | _ => ret cursor
                   end in
    let cursor := match sort_field with
                  | Some f => if negb (String.eqb f "") then sort f sort_order cursor else cursor
                  | None => cursor
                  end in
    let cursor := if Z.ltb 0 limit_ then limit limit_ cursor else cursor in
    let* results := list_cursor cursor in
    print ("Read operation successful: Retrieved " +:+ pretty (length results) +:+
           " document(s)") >>
    ret results).

Definition update (query new_values : PyObj) (upsert : bool) : Py Doc :=
  let* tq := truthy query in
  if negb tq
  then raise (Exception "Update operation failed: 'query' parameter is empty or None")
  else
    let* tn := truthy new_values in
    if negb tn
    then raise (Exception "Update operation failed: 'new_values' parameter is empty or None")
    else
      match query, new_values with
      | PyDict q, PyDict nv =>
          wrapped "Update operation" (
            let* now := datetime_now in
            setitem nv "last_modified_timestamp" (VTime now) >>
            let* qd := getdict q in
            let* nvd := getdict nv in
            let* update_result := update_many qd nvd upsert in
            let* matched := matched_count update_result in
            let* modified := modified_count update_result in
            let* up := upserted_id update_result in
            let result_info : Doc :=
              {[ "acknowledged" := VBool (u_acknowledged update_result);
                 "matched_count" := VInt (Z.of_nat matched);
                 "modified_count" := VInt (Z.of_nat modified);
                 "upserted_id" := default VNone up ]} in
            if u_acknowledged update_result
            then
              print ("Update successful: " +:+ py_str (result_info !!! "modified_count") +:+
                     " document(s) modified") >>
              ret result_info
            else
              print "Update operation was not acknowledged by database" >>
              ret result_info)
      | PyDict _, _ =>
          raise (Exception "Update operation failed: 'new_values' parameter must be a dictionary")
      | _, _ =>
          raise (Exception "Update operation failed: 'query' parameter must be a dictionary")
      end.

Definition delete (query : PyObj) (confirm_delete : bool) : Py Doc :=
  let* tq := truthy query in
  if negb tq
  then raise (Exception "Delete operation failed: 'query' parameter is empty or None")
  else
    match query with
    | PyDict q =>
        let* qd := getdict q in
        if bool_decide (qd = ∅) && confirm_delete
        then raise (Exception "Delete operation failed: Empty query would delete all documents. Use confirm_delete=False to override.")
        else
          wrapped "Delete operation" (
            let* count_to_delete := count_documents qd in
            if Nat.eqb count_to_delete 0
            then
              print "Delete operation: No documents match the specified query" >>
              ret {[ "acknowledged" := VBool true; "deleted_count" := VInt 0 ]}
            else
              let* delete_result := delete_many qd in
              let* deleted := deleted_count delete_result in
              let result_info : Doc :=
                {[ "acknowledged" := VBool (d_acknowledged delete_result);
                   "deleted_count" := VInt (Z.of_nat deleted) ]} in
              if d_acknowledged delete_result
              then
                print ("Delete successful: " +:+ py_str (result_info !!! "deleted_count") +:+
                       " document(s) deleted") >>
                ret result_info
              else
                print "Delete operation was not acknowledged by database" >>
                ret result_info)
    | _ => raise (Exception "Delete operation failed: 'query' parameter must be a dictionary")
    end.

End Methods.
End Original.

(** ** A reference collaborator

    An in-memory store with the equality fragment of the filter language,
    inclusion and exclusion projections, and the comparison order of the
    value kinds modelled here. *)

(** every clause [field: value] of the filter holds of the document *)
Definition eq_matches (q d : Doc) : bool :=
  bool_decide (map_Forall (λ k v, d !! k = Some v) q).

(** a projection with a true flag lists the fields to keep ([_id] stays
    unless switched off); otherwise it lists the fields to drop *)
Definition is_inclusion (p : Doc) : bool :=
  bool_decide (map_Exists (λ _ v, py_truthy v = true) p).

Definition keeps (p : Doc) (k : string) : bool :=
  match p !! k with
  | Some v => py_truthy v
  | None => if is_inclusion p then String.eqb k "_id" else true
  end.

Definition flag_project (p d : Doc) : Doc :=
  filter (λ kv, keeps p kv.1 = true) d.

(** rank of the value kinds in the comparison order; a missing field
    compares as null *)
Definition kind_rank (k : option Value) : Z :=
  match k with
  | None | Some VNone => 1
  | Some (VInt _) => 2
  | Some (VStr _) => 3
  | Some (VOid _) => 4
  | Some (VBool _) => 5
  | Some (VTime _) => 6
  end.

Definition same_kind_le (a b : option Value) : bool :=
  match a, b with
  | Some (VInt x), Some (VInt y) => Z.leb x y
  | Some (VStr s), Some (VStr t) => bool_decide (s ≤ t)%string
  | Some (VOid m), Some (VOid n) => N.leb m n
  | Some (VBool x), Some (VBool y) => implb x y
  | Some (VTime s), Some (VTime t) => Z.leb s t
  | _, _ => true
  end.

Definition kind_le (a b : option Value) : bool :=
  if Z.ltb (kind_rank a) (kind_rank b) then true
  else if Z.ltb (kind_rank b) (kind_rank a) then false
  else same_kind_le a b.

(** [$set] on flat records.  An update is refused outright when a key is
    not a well-formed path (it is empty, has an empty component, or begins
    with a dollar sign) or when one key is a path through another.  The
    records of this model hold scalar values only, so on a stored record
    the reference collaborator refuses a dotted path, which it could only
    serve with an embedded document; a key that is a field name sets that
    field. *)
Definition contains (sub s : string) : bool :=
  bool_decide (is_Some (String.index 0 sub s)).

Definition well_formed_path (k : string) : bool :=
  negb (String.eqb k "") && negb (String.prefix "$" k) &&
  negb (String.prefix "." k) && negb (contains ".." k) &&
  negb (String.eqb (String.substring (String.length k - 1) 1 k) ".").

Definition flat_set_refused (nv : Doc) : option string :=
  if bool_decide (map_Forall (λ k _,
       well_formed_path k = true ∧
       map_Forall (λ k' _, String.prefix (k +:+ ".") k' = false) nv) nv)
  then None
  else Some "WriteError: the update path is not valid".

Definition flat_set_error (nv d : Doc) : option string :=
  if bool_decide (map_Forall (λ k _, field_root k = k) nv) then None
  else Some "WriteError: cannot create an embedded field in the document".

Definition flat_apply_set (nv d : Doc) : Doc := nv ∪ d.

(** ** Worlds used in the worked examples *)

Definition rex : Doc :=
  {[ "animal_id" := VStr "A1"; "animal_type" := VStr "Dog"; "breed" := VStr "Lab" ]}.

(** a record as loaded from the shelter's data set, not through [create] *)
Definition imported : Doc :=
  {[ "_id" := VInt 7; "animal_id" := VStr "A7"; "animal_type" := VStr "Cat";
     "breed" := VStr "Domestic Shorthair" ]}.

Definition stamped : Doc :=
  {[ "_id" := VInt 8; "animal_id" := VStr "A8"; "animal_type" := VStr "Dog";
     "breed" := VStr "Beagle"; "created_timestamp" := VTime 500 ]}.

(** a full record in which the caller has put a creation time of their own *)
Definition backdated : Doc := <[ "created_timestamp" := VTime 1 ]> rex.

Definition utc (n : nat) : Z := (1000 + Z.of_nat n)%Z.

(** The dicts the caller holds: a full record, an empty dict, a filter, a
    set of new values, a record with one field only, a backdated record,
    and a filter on the full record's [animal_id]. *)
Definition caller_heap : gmap nat Doc :=
  {[ 0 := rex;
     1 := ∅;
     2 := {[ "animal_type" := VStr "Dog" ]};
     3 := {[ "breed" := VStr "Hound" ]};
     4 := {[ "animal_id" := VStr "A9" ]};
     5 := backdated;
     6 := {[ "animal_id" := VStr "A1" ]} ]}.

(** the value a call returned ([dflt] if it raised) *)
Definition returned {A} (dflt : A) (r : Outcome A * World) : A :=
  match r.1 with
  | Return a => a
  | Raise _ => dflt
  end.

Definition world_with (ds : list Doc) (audit_up : bool) : World :=
  mkWorld caller_heap (mkCollection ds true true) (mkAuditCollection [] audit_up)
    [] [] [] utc 0 (-18000) 0.

(** a message names a field when the field occurs in it *)
Definition mentions (msg f : string) : Prop := ∃ pre post, msg = pre +:+ f +:+ post.

(** two worlds that differ at most in the audit collection, the log and the
    request trace *)
Definition same_but_audit (w1 w2 : World) : Prop :=
  heap w1 = heap w2 ∧ collection w1 = collection w2 ∧ wall w1 = wall w2 ∧
  ticks w1 = ticks w2 ∧ next_oid w1 = next_oid w2.

(** ** What [read] asks for *)

(** the filter [read] passes on: match-all for [None], the dict's contents
    for a dict; anything else is refused *)
Definition filter_of (w : World) (query : PyObj) : option Doc :=
  match query with
  | PyNone => Some ∅
  | PyDict l => Some (heap w !!! l)
  | _ => None
  end.

(** the projection [read] passes on: only a dict counts *)
Definition projection_of (w : World) (projection : PyObj) : option Doc :=
  match projection with
  | PyDict p => Some (heap w !!! p)
  | _ => None
  end.

(** the sort the cursor is given: none for an absent or empty field name *)
Definition sort_of (sort_field : option string) (sort_order : Z) : option (string * Z) :=
  match sort_field with
  | Some f => if String.eqb f "" then None else Some (f, sort_order)
  | None => None
  end.

(** the cursor [read] builds *)
Definition read_cursor (q : Doc) (p : option Doc) (n : Z)
    (sort_field : option string) (sort_order : Z) : Cursor :=
  mkCursor q p (sort_of sort_field sort_order) (if bool_decide (0 < n)%Z then n else 0%Z).

(** a computation whose result and effect on everything else do not depend
    on the audit collection *)
Definition audit_blind {A} (m : Py A) : Prop :=
  ∀ w1 w2, same_but_audit w1 w2 →
    (m w1).1 = (m w2).1 ∧ same_but_audit (m w1).2 (m w2).2.

(** ** Opening and closing the connection

    The constructor and [close] run before and after the instance has its
    collections, against the driver and the process environment.  What
    these answer is given by a [Driver]; what the code does with the answers
    is the model. *)

Module Lifecycle.

(** Answers of the environment and the driver; [None] is a call that
    returns normally, [Some e] one that raises [e]. *)
Record Driver := mkDriver {
  (** [os.getenv("MONGO_URI")] *)
  env_mongo_uri : option string;
  (** [MongoClient(uri, serverSelectionTimeoutMS=t)] *)
  client_error : string → Z → option Exn;
  (** [client.admin.command("ping")] on the client opened on a URI *)
  ping_error : string → option Exn;
  (** [collection.create_index([(field, ASCENDING)])] *)
  index_error : string → option Exn;
  (** [client.close()] *)
  close_error : option Exn;
}.

(** Calls made to the driver, in order. *)
Inductive Call :=
  | CallMongoClient (uri : string) (timeout_ms : Z)
  | CallPing (uri : string)
  | CallCreateIndex (collection field : string)
  | CallClose (uri : string).

Record Session := mkSession {
  s_logged : list (Level * string);
  s_printed : list string;
  s_calls : list Call;
}.

(** the attributes [__init__] sets: the client (by the URI it was opened
    on) and the names of the database and the two collections *)
Record Shelter := mkShelter {
  self_client : string;
  self_database : string;
  self_collection : string;
  self_audits : option string;
}.

Definition Boot (A : Type) : Type := Session → Outcome A * Session.

Definition done_with {A} (a : A) : Boot A := λ s, (Return a, s).
Definition fail_with {A} (e : Exn) : Boot A := λ s, (Raise e, s).
Definition and_then {A B} (m : Boot A) (k : A → Boot B) : Boot B :=
  λ s, match m s with
       | (Return a, s') => k a s'
       | (Raise e, s') => (Raise e, s')
       end.
(** [try: m  except Exception as exc: h exc] *)
Definition attempt {A} (m : Boot A) (h : Exn → Boot A) : Boot A :=
  λ s, match m s with
       | (Return a, s') => (Return a, s')
       | (Raise e, s') => h e s'
       end.

Notation "m1 ';;' m2" := (and_then m1 (λ _, m2))
  (at level 100, m2 at level 200, right associativity).

Definition emit (lvl : Level) (msg : string) : Boot unit :=
  λ s, (Return tt, mkSession (s_logged s ++ [(lvl, msg)]) (s_printed s) (s_calls s)).
Definition say (line : string) : Boot unit :=
  λ s, (Return tt, mkSession (s_logged s) (s_printed s ++ [line]) (s_calls s)).

(** a driver call: recorded, then it returns or raises as the driver
    answers *)
Definition call (c : Call) (answer : option Exn) : Boot unit :=
  λ s, let s' := mkSession (s_logged s) (s_printed s) (s_calls s ++ [c]) in
       match answer with
       | None => (Return tt, s')
       | Some e => (Raise e, s')
       end.

Section Methods.
Context (D : Driver).

(** [uri or os.getenv("MONGO_URI", "mongodb://localhost:27017/")] *)
Definition mongo_uri (uri : option string) : string :=
  match uri with
  | Some u => if String.eqb u "" then default "mongodb://localhost:27017/" (env_mongo_uri D)
              else u
  | None => default "mongodb://localhost:27017/" (env_mongo_uri D)
  end.

Definition create_index (self : Shelter) (field : string) : Boot unit :=
  call (CallCreateIndex (self_collection self) field) (index_error D field).

Definition _ensure_indexes (self : Shelter) : Boot unit :=
  attempt (
    create_index self "animal_id" ;;
    create_index self "created_timestamp" ;;
    create_index self "last_modified_timestamp")
  (λ exc, emit WARNING ("index_creation_failed: " +:+ str_exn exc)).

Definition __init__ (uri : option string) (database collection audits_collection : string)
    (ensure_indexes : bool) (connect_timeout_ms : Z) : Boot Shelter :=
  let mongo_uri := mongo_uri uri in
  attempt (
    call (CallMongoClient mongo_uri connect_timeout_ms)
         (client_error D mongo_uri connect_timeout_ms) ;;
    call (CallPing mongo_uri) (ping_error D mongo_uri) ;;
    let self := mkShelter mongo_uri database collection (Some audits_collection) in
    (if ensure_indexes then _ensure_indexes self else done_with tt) ;;
    emit INFO ("connected to mongodb database=" +:+ database +:+
               " collection=" +:+ collection) ;;
    done_with self)
  (λ exc, emit ERROR ("mongo_connect_error: " +:+ str_exn exc) ;; fail_with exc).

Definition close (self : Shelter) : Boot unit :=
  attempt (call (CallClose (self_client self)) (close_error D))
          (λ _, done_with tt).


Definition close_connection (self : Shelter) : Boot unit :=
  attempt (
    call (CallClose (self_client self)) (close_error D) ;;
    say "Database connection closed successfully")
  (λ e, say ("Error closing database connection: " +:+ str_exn e)).

End Methods.
End Lifecycle.

(** [get_collection_stats] of the first version.  The answer of the
    [collstats] command is the driver's; it is a parameter here. *)
Module OriginalStats.
Import Mongo.
Section Methods.
Context `{C : Collaborator}.
(** [self.database.command("collstats", name)] *)
Context (collstats : string → Outcome Doc).

Definition database_command_collstats (name : string) : Py Doc :=
  λ w, (collstats name, w).

Definition get_collection_stats : Py (option Doc) :=
  try_except (
    let* stats := database_command_collstats "animals" in
    let* document_count := count_documents ∅ in
    ret (Some {[ "document_count" := VInt (Z.of_nat document_count);
                 "collection_size" := default (VStr "Unknown") (stats !! "size");
                 "index_count" := default (VStr "Unknown") (stats !! "nindexes") ]}))
  (λ e, print ("Error retrieving collection stats: " +:+ str_exn e) >> ret None).

End Methods.
End OriginalStats.

(** the fields [_ensure_indexes] asks an index for, in order *)
Definition index_fields : list string :=
  ["animal_id"; "created_timestamp"; "last_modified_timestamp"].

(** ** What a computation raises and what it leaves alone *)

(** every exception a computation can raise satisfies [P] *)
Definition raises_only {A} (P : Exn → Prop) (m : Py A) : Prop :=
  ∀ w e w', m w = (Raise e, w') → P e.



(** an exception of class [Exception] itself *)
Definition is_plain_exception (e : Exn) : Prop := ∃ msg, e = Exception msg.

(** every run of the computation relates the world before to the world
    after *)
Definition maintains {A} (R : relation World) (m : Py A) : Prop :=
  ∀ w r w', m w = (r, w') → R w w'.

(** requests that only ask *)
Definition is_query (r : Request) : Prop :=
  match r with
  | ReqFind _ | ReqEstimatedCount | ReqCountDocuments _ => True
  | _ => False
  end.

(** nothing changed but the log, and the requests sent were queries *)
Definition only_asked (w w' : World) : Prop :=
  heap w' = heap w ∧ collection w' = collection w ∧ audits w' = audits w ∧
  printed w' = printed w ∧ wall w' = wall w ∧ ticks w' = ticks w ∧
  next_oid w' = next_oid w ∧
  ∃ sent, requests w' = requests w ++ sent ∧ Forall is_query sent.

(** the audit collection is as it was *)
Definition same_audits (w w' : World) : Prop := audits w' = audits w.

(** a computation that, when it raises, has left the audit collection
    alone *)
Definition quiet_on_raise {A} (m : Py A) : Prop :=
  ∀ w e w', m w = (Raise e, w') → audits w' = audits w.

(** ** More worlds, and drivers, for the worked examples *)

(** the same world, with a server that does not answer *)
Definition world_down (ds : list Doc) : World :=
  set_collection (mkCollection ds false true) (world_with ds true).

(** the same world, seen through a handle whose writes are not
    acknowledged *)
Definition world_unacknowledged (ds : list Doc) : World :=
  set_collection (mkCollection ds true false) (world_with ds true).

Definition no_index_rights : Lifecycle.Driver :=
  Lifecycle.mkDriver None (λ _ _, None) (λ _, None)
    (λ f, if String.eqb f "created_timestamp" then Some (PyMongoError "OperationFailure")
          else None)
    (Some (PyMongoError "AutoReconnect")).
Definition new_session : Lifecycle.Session := Lifecycle.mkSession [] [] [].

(** * Properties *)

(** ** The reference collaborator is a collaborator *)

Lemma eq_matches_empty d : eq_matches ∅ d = true.
Proof. unfold eq_matches. apply bool_decide_eq_true, map_Forall_empty. Qed.

Lemma flag_project_included f d : flag_project {[ f := VInt 1 ]} d !! f = d !! f.
Proof.
  unfold flag_project.
  destruct (d !! f) as [v|] eqn:E.
  - apply map_lookup_filter_Some. split; [done|]. simpl.
    unfold keeps. by rewrite lookup_singleton_eq.
  - apply map_lookup_filter_None. by left.
Qed.

Lemma kind_le_total a b : kind_le a b = true ∨ kind_le b a = true.
Proof.
  unfold kind_le.
  destruct a as [[]|], b as [[]|]; simpl; auto.
  all: try (rewrite !Z.leb_le; lia).
  all: try (rewrite !N.leb_le; lia).
  - destruct b0, b; simpl; auto.
  - destruct (total String.le s s0); [left|right]; by apply bool_decide_eq_true.
Qed.

Lemma kind_le_trans a b c : kind_le a b = true → kind_le b c = true → kind_le a c = true.
Proof.
  unfold kind_le.
  destruct a as [[]|], b as [[]|]; simpl; try done;
    destruct c as [[]|]; simpl; try done.
  all: try (rewrite !Z.leb_le; lia).
  all: try (rewrite !N.leb_le; lia).
  - destruct b0, b, b1; simpl; auto.
  - intros ?%bool_decide_eq_true ?%bool_decide_eq_true.
    apply bool_decide_eq_true. by etrans.
Qed.

Lemma flat_apply_set_named nv d k v :
  flat_set_error nv d = None → field_root k = k → nv !! k = Some v →
  flat_apply_set nv d !! k = Some v.
Proof. intros _ _ Hv. unfold flat_apply_set. by apply lookup_union_Some_l. Qed.

Lemma flat_apply_set_frame nv d k :
  flat_set_error nv d = None → (∀ k', is_Some (nv !! k') → field_root k' ≠ k) →
  flat_apply_set nv d !! k = d !! k.
Proof.
  unfold flat_set_error, flat_apply_set. case_bool_decide as Hnames; [|done].
  intros _ Hk. apply lookup_union_r.
  destruct (nv !! k) as [v|] eqn:Ev; [|done].
  destruct (Hk k); [by rewrite Ev|].
  by specialize (Hnames k v Ev).
Qed.

Definition reference_collaborator : Collaborator := {|
  matches := eq_matches;
  matches_empty := eq_matches_empty;
  project := flag_project;
  project_included := flag_project_included;
  upsert_seed := λ q, q;
  set_refused := flat_set_refused;
  set_error := flat_set_error;
  apply_set := flat_apply_set;
  apply_set_named := flat_apply_set_named;
  apply_set_frame := flat_apply_set_frame;
  key_le := kind_le;
  key_le_total := kind_le_total;
  key_le_trans := kind_le_trans;
|}.

(** ** Running the monad *)

Section Running.
Context `{C : Collaborator}.
Import Mongo.

Lemma run_bind {A B} (m : Py A) (k : A → Py B) w :
  bind m k w = match m w with
               | (Return a, w') => k a w'
               | (Raise e, w') => (Raise e, w')
               end.
Proof. reflexivity. Qed.

Lemma run_getdict l d w : heap w !! l = Some d → getdict l w = (Return d, w).
Proof. intros E. unfold getdict, gets. by rewrite (lookup_total_correct _ _ _ E). Qed.

Lemma run_require_dict l d name allow_empty w :
  heap w !! l = Some d →
  AnimalShelter._require_dict (PyDict l) name allow_empty w =
    if negb allow_empty && negb (dict_truthy d)
    then (Raise (ValueError (name +:+ " must be a non-empty dict")), w)
    else (Return l, w).
Proof.
  intros E. unfold AnimalShelter._require_dict.
  rewrite run_bind, (run_getdict _ _ _ E).
  by destruct (negb allow_empty && negb (dict_truthy d)).
Qed.

Lemma dict_truthy_nonempty (d : Doc) : d ≠ ∅ → dict_truthy d = true.
Proof. intros E. unfold dict_truthy. by rewrite bool_decide_eq_false_2. Qed.

Lemma dict_truthy_true (d : Doc) : dict_truthy d = true → d ≠ ∅.
Proof.
  unfold dict_truthy. intros E%negb_true_iff. by apply bool_decide_eq_false in E.
Qed.

End Running.

(** ** The delete guard *)

Section DeleteGuard.
Context `{C : Collaborator}.

(** An empty filter never reaches the guard on [confirm_delete]:
    [_require_dict] is called without [allow_empty] and raises first. *)
Lemma delete_empty_query w l actor confirm :
  heap w !! l = Some ∅ →
  AnimalShelter.delete (PyDict l) actor confirm w =
    (Raise (ValueError "query must be a non-empty dict"),
     set_logged (logged w ++ [(ERROR, "delete_failed error=query must be a non-empty dict")]) w).
Proof.
  intros E. unfold AnimalShelter.delete, AnimalShelter.logged_as, try_except.
  by rewrite run_bind, (run_require_dict _ _ _ _ _ E).
Qed.

(** C1: [delete(q)] with [q] an empty dict and [confirm_delete] left at its
    default [True] raises [ValueError]; nothing is sent to the collaborator
    and the primary collection, the audit collection and the caller's dicts
    are as before. *)
Theorem delete_empty_filter_refused w l actor :
  heap w !! l = Some ∅ →
  ∃ msg w',
    AnimalShelter.delete (PyDict l) actor true w = (Raise (ValueError msg), w') ∧
    collection w' = collection w ∧
    requests w' = requests w ∧
    audits w' = audits w ∧
    heap w' = heap w.
Proof.
  intros E. eexists _, _. split; [by apply delete_empty_query|]. done.
Qed.

End DeleteGuard.

Lemma delete_empty_filter_refused_witness :
  ∃ msg w',
    AnimalShelter.delete (C := reference_collaborator) (PyDict 1) None true
      (world_with [imported; stamped] true) = (Raise (ValueError msg), w') ∧
    collection w' = collection (world_with [imported; stamped] true) ∧
    requests w' = requests (world_with [imported; stamped] true) ∧
    audits w' = audits (world_with [imported; stamped] true) ∧
    heap w' = heap (world_with [imported; stamped] true).
Proof.
  apply (delete_empty_filter_refused (C := reference_collaborator)
           (world_with [imported; stamped] true) 1 None).
  reflexivity.
Defined.

(** C2: the documented override does not work.  [delete({},
    confirm_delete=False)] on a collection of two records raises the same
    [ValueError] as the guarded call, sends nothing and deletes nothing. *)
Theorem delete_override_still_refused :
  ∃ w',
    AnimalShelter.delete (C := reference_collaborator) (PyDict 1) None false
      (world_with [imported; stamped] true)
    = (Raise (ValueError "query must be a non-empty dict"), w') ∧
    docs (collection w') = [imported; stamped] ∧
    requests w' = [].
Proof.
  eexists. split.
  - apply delete_empty_query. reflexivity.
  - done.
Qed.

(** ** Validation in [create] *)

Lemma string_app_assoc (a b c : string) : (a +:+ b) +:+ c = a +:+ b +:+ c.
Proof.
  induction a as [|x a IH]; [done|].
  change (String x ((a +:+ b) +:+ c) = String x (a +:+ b +:+ c)). by rewrite IH.
Qed.

Lemma string_app_empty_r (a : string) : a +:+ "" = a.
Proof.
  induction a as [|x a IH]; [done|].
  change (String x (a +:+ "") = String x a). by rewrite IH.
Qed.

(** every element of a joined list occurs in the joined string *)
Lemma concat_mentions sep (l : list string) f :
  f ∈ l → mentions (String.concat sep l) f.
Proof.
  induction l as [|x l IH]; [by intros ?%elem_of_nil|].
  intros [->|Hin]%elem_of_cons.
  - destruct l as [|y l].
    + exists "", "". by rewrite string_app_empty_r.
    + by exists "", (sep +:+ String.concat sep (y :: l)).
  - destruct (IH Hin) as (pre & post & E).
    destruct l as [|y l]; [by apply elem_of_nil in Hin|].
    exists (x +:+ sep +:+ pre), post.
    change (String.concat sep (x :: y :: l)) with (x +:+ sep +:+ String.concat sep (y :: l)).
    rewrite E. by rewrite !string_app_assoc.
Qed.

Section CreateValidation.
Context `{C : Collaborator}.

Lemma create_missing_fields w l d actor :
  heap w !! l = Some d → d ≠ ∅ →
  AnimalShelter.missing_fields d AnimalShelter.required_fields ≠ [] →
  let msg := "missing required field(s): " +:+
             String.concat ", " (AnimalShelter.missing_fields d AnimalShelter.required_fields) in
  AnimalShelter.create (PyDict l) actor w =
    (Raise (ValueError msg),
     set_logged (logged w ++ [(ERROR, "create_failed error=" +:+ msg)]) w).
Proof.
  intros E Hne Hm msg. unfold AnimalShelter.create, AnimalShelter.logged_as, try_except.
  rewrite run_bind, (run_require_dict _ _ _ _ _ E), (dict_truthy_nonempty _ Hne). simpl.
  rewrite run_bind. unfold AnimalShelter._validate_required_fields.
  rewrite run_bind, (run_getdict _ _ _ E).
  by destruct (AnimalShelter.missing_fields d AnimalShelter.required_fields) eqn:Em.
Qed.

(** C3: when the dict passed to [create] is non-empty and lacks one of
    [animal_id], [animal_type], [breed], the call raises [ValueError]; the
    message names every missing field; no request reaches the collaborator
    and the collections and the caller's dicts are as before. *)
Theorem create_missing_fields_rejected w l d actor :
  heap w !! l = Some d →
  d ≠ ∅ →
  (∃ f, f ∈ AnimalShelter.required_fields ∧ d !! f = None) →
  ∃ msg w',
    AnimalShelter.create (PyDict l) actor w = (Raise (ValueError msg), w') ∧
    (∀ f, f ∈ AnimalShelter.required_fields → d !! f = None → mentions msg f) ∧
    requests w' = requests w ∧
    collection w' = collection w ∧
    audits w' = audits w ∧
    heap w' = heap w.
Proof.
  intros E Hne (f0 & Hin0 & Hf0).
  assert (Hm : AnimalShelter.missing_fields d AnimalShelter.required_fields ≠ []).
  { intros Hnil.
    assert (f0 ∈ AnimalShelter.missing_fields d AnimalShelter.required_fields) as Hin
      by by apply list_elem_of_filter.
    rewrite Hnil in Hin. by apply elem_of_nil in Hin. }
  eexists _, _. split; [by apply create_missing_fields|].
  split; [|done].
  intros f Hin Hf.
  destruct (concat_mentions ", "
              (AnimalShelter.missing_fields d AnimalShelter.required_fields) f)
    as (pre & post & E'); [by apply list_elem_of_filter|].
  exists ("missing required field(s): " +:+ pre), post.
  rewrite E'. by rewrite string_app_assoc.
Qed.

End CreateValidation.

Lemma create_missing_fields_rejected_witness :
  ∃ msg w',
    AnimalShelter.create (PyDict 4) (Some "intake")
      (world_with [imported] true) = (Raise (ValueError msg), w') ∧
    (∀ f, f ∈ AnimalShelter.required_fields →
          ({[ "animal_id" := VStr "A9" ]} : Doc) !! f = None → mentions msg f) ∧
    requests w' = requests (world_with [imported] true) ∧
    collection w' = collection (world_with [imported] true) ∧
    audits w' = audits (world_with [imported] true) ∧
    heap w' = heap (world_with [imported] true).
Proof.
  apply (create_missing_fields_rejected
           (world_with [imported] true) 4 {[ "animal_id" := VStr "A9" ]} (Some "intake")).
  - reflexivity.
  - apply (bool_decide_unpack _). vm_compute. exact I.
  - exists "breed". split; [|reflexivity].
    apply list_elem_of_In. simpl. auto.
Defined.

(** ** What a successful [create] does *)

Section CreateWrite.
Context `{C : Collaborator}.
Import Mongo.

(** [_audit] always returns; it leaves the caller's dicts and the primary
    collection alone, and an unreachable audit collection costs one
    warning. *)
Lemma run_audit action details w :
  ∃ w',
    AnimalShelter._audit action details w = (Return tt, w') ∧
    heap w' = heap w ∧ collection w' = collection w ∧
    wall w' = wall w ∧ ticks w' = S (ticks w) ∧ next_oid w' = next_oid w ∧
    requests w' = requests w ++
      [ReqAuditInsert (mkAuditEntry action details (wall w (ticks w)))] ∧
    if audit_reachable (audits w)
    then entries (audits w') = entries (audits w) ++
           [mkAuditEntry action details (wall w (ticks w))] ∧
         logged w' = logged w
    else audits w' = audits w ∧
         logged w' = logged w ++
           [(WARNING, "audit_failed action=" +:+ action +:+ " error=" +:+ str_exn server_down)].
Proof.
  unfold AnimalShelter._audit, AnimalShelter._utcnow, audits_insert_one, try_except,
    bind, ret, raise, gets, modify, send, log. simpl.
  destruct (audit_reachable (audits w)) eqn:Ea; simpl; eexists; (split; [reflexivity|]); simpl;
    rewrite ?Ea; repeat split; auto.
Qed.


(** a successful [insert_one], read backwards *)
Lemma insert_one_returns w l d r w' :
  heap w !! l = Some d →
  insert_one l w = (Return r, w') →
  ∃ stored id,
    stored !! "_id" = Some id ∧
    (∀ k, k ≠ "_id" → stored !! k = d !! k) ∧
    (d !! "_id" = None ∨ d !! "_id" = Some id) ∧
    r = mkInsertOneResult (write_ack (collection w)) id ∧
    reachable (collection w) = true ∧
    id_taken id (docs (collection w)) = false ∧
    collection w' = set_docs (docs (collection w) ++ [stored]) (collection w) ∧
    heap w' = <[l := stored]> (heap w) ∧
    requests w' = requests w ++ [ReqInsertOne stored] ∧
    audits w' = audits w ∧ logged w' = logged w ∧
    wall w' = wall w ∧ ticks w' = ticks w.
Proof.
  intros E. unfold insert_one.
  rewrite run_bind, (run_getdict _ _ _ E).
  destruct (d !! "_id") as [v|] eqn:Eid.
  - unfold bind, ret, raise, gets, modify, send, getdict. simpl.
    rewrite (lookup_total_correct _ _ _ E).
    destruct (reachable (collection w)) eqn:Er; simpl; [|done].
    destruct (id_taken v (docs (collection w))) eqn:Et; simpl; [done|].
    intros [= <- <-]. exists d, v. simpl.
    repeat split; auto. by rewrite insert_id.
  - unfold bind, ret, raise, gets, modify, send, getdict, setitem, fresh_oid. simpl.
    rewrite lookup_total_insert_eq, (lookup_total_correct _ _ _ E).
    destruct (reachable (collection w)) eqn:Er; simpl; [|done].
    destruct (id_taken _ (docs (collection w))) eqn:Et; simpl; [done|].
    intros [= <- <-]. eexists (<["_id" := VOid (next_oid w)]> d), _. simpl.
    repeat split; auto.
    + by rewrite lookup_insert_eq.
    + intros k Hk. by rewrite lookup_insert_ne.
Qed.


Lemma insert_one_succeeds w l d :
  heap w !! l = Some d →
  reachable (collection w) = true →
  id_taken (default (VOid (next_oid w)) (d !! "_id")) (docs (collection w)) = false →
  ∃ r w', insert_one l w = (Return r, w').
Proof.
  intros E Hr Ht. unfold insert_one.
  rewrite run_bind, (run_getdict _ _ _ E).
  destruct (d !! "_id") as [v|] eqn:Eid; simpl in Ht.
  - unfold bind, ret, raise, gets, modify, send, getdict. simpl.
    rewrite Hr, Ht. simpl. eauto.
  - unfold bind, ret, raise, gets, modify, send, getdict, setitem, fresh_oid. simpl.
    rewrite Hr, Ht. simpl. eauto.
Qed.

(** a successful [create], read backwards *)
Lemma create_returns w l d actor out w' :
  heap w !! l = Some d →
  AnimalShelter.create (PyDict l) actor w = (Return out, w') →
  ∃ stored id,
    d ≠ ∅ ∧
    AnimalShelter.missing_fields d AnimalShelter.required_fields = [] ∧
    stored !! "_id" = Some id ∧
    (d !! "_id" = None ∨ d !! "_id" = Some id) ∧
    stored !! "created_timestamp" = Some (VTime (wall w (ticks w))) ∧
    (∀ k, k ≠ "_id" → k ≠ "created_timestamp" → stored !! k = d !! k) ∧
    out = {[ "ok" := VBool (write_ack (collection w));
             "inserted_id" := VStr (py_str id) ]} ∧
    docs (collection w') = docs (collection w) ++ [stored] ∧
    heap w' = <[l := stored]> (heap w) ∧
    requests w' = requests w ++
      [ReqInsertOne stored;
       ReqAuditInsert (mkAuditEntry "CREATE"
                         {[ "actor" := AnimalShelter.opt_str actor;
                            "inserted_id" := VStr (py_str id) ]}
                         (wall w (S (ticks w))))].
Proof.
  intros E. unfold AnimalShelter.create, AnimalShelter.logged_as, try_except.
  rewrite run_bind, (run_require_dict _ _ _ _ _ E). simpl.
  destruct (dict_truthy d) eqn:Ed; simpl; [|done].
  rewrite run_bind. unfold AnimalShelter._validate_required_fields.
  rewrite run_bind, (run_getdict _ _ _ E).
  destruct (AnimalShelter.missing_fields d AnimalShelter.required_fields) eqn:Em; [|done].
  unfold ret at 1. rewrite run_bind. unfold AnimalShelter._utcnow at 1.
  rewrite run_bind. unfold setitem at 1, modify at 1.
  rewrite run_bind.
  set (now := wall w (ticks w)).
  set (w1 := set_heap _ _).
  assert (E1 : heap w1 !! l = Some (<["created_timestamp" := VTime now]> d)).
  { subst w1. simpl. by rewrite lookup_insert_eq, (lookup_total_correct _ _ _ E). }
  destruct (insert_one l w1) as [[r|e] w2] eqn:Ei; [|by destruct e].
  destruct (insert_one_returns _ _ _ _ _ E1 Ei)
    as (stored & id & Hid & Hk & Hd & -> & Hr & Ht & Hc & Hh & Hq & Ha & Hl & Hw & Hti).
  rewrite run_bind.
  match goal with
  | |- context [AnimalShelter._audit ?a ?dt ?ww] =>
      destruct (run_audit a dt ww) as (w3 & Ea & Hh3 & Hc3 & Hw3 & Hti3 & Ho3 & Hq3 & _);
      rewrite Ea
  end.
  unfold ret. intros [= <- <-].
  exists stored, id. split; [by apply dict_truthy_true|]. split; [done|].
  split; [done|]. split.
  { destruct Hd as [Hd|Hd]; [left|right]; by rewrite lookup_insert_ne in Hd. }
  split. { rewrite Hk by done. by rewrite lookup_insert_eq. }
  split. { intros k H1 H2. rewrite Hk by done. by rewrite lookup_insert_ne. }
  split; [done|].
  split. { by rewrite Hc3, Hc. }
  split. { rewrite Hh3, Hh. subst w1. simpl. by rewrite insert_insert_eq. }
  rewrite Hq3, Hq, Hw, Hti. subst w1. simpl. by rewrite <- app_assoc.
Qed.

(** [create] succeeds on a non-empty dict with the three required fields
    when the server answers and the record's [_id] is free. *)
Lemma create_succeeds w l d actor :
  heap w !! l = Some d →
  d ≠ ∅ →
  AnimalShelter.missing_fields d AnimalShelter.required_fields = [] →
  reachable (collection w) = true →
  id_taken (default (VOid (next_oid w)) (d !! "_id")) (docs (collection w)) = false →
  ∃ out w', AnimalShelter.create (PyDict l) actor w = (Return out, w').
Proof.
  intros E Hne Hm Hr Ht. unfold AnimalShelter.create, AnimalShelter.logged_as, try_except.
  rewrite run_bind, (run_require_dict _ _ _ _ _ E), (dict_truthy_nonempty _ Hne).
  cbn [negb andb].
  rewrite run_bind. unfold AnimalShelter._validate_required_fields.
  rewrite run_bind, (run_getdict _ _ _ E), Hm.
  unfold ret at 1. rewrite run_bind. unfold AnimalShelter._utcnow at 1.
  rewrite run_bind. unfold setitem at 1, modify at 1.
  rewrite run_bind.
  set (now := wall w (ticks w)).
  set (w1 := set_heap _ _).
  destruct (insert_one_succeeds w1 l (<["created_timestamp" := VTime now]> d))
    as (r & w2 & ->).
  { subst w1. simpl. by rewrite lookup_insert_eq, (lookup_total_correct _ _ _ E). }
  { done. }
  { by rewrite lookup_insert_ne. }
  rewrite run_bind.
  match goal with
  | |- context [AnimalShelter._audit ?a ?dt ?ww] =>
      destruct (run_audit a dt ww) as (w3 & -> & _)
  end.
  unfold ret. eauto.
Qed.


End CreateWrite.


(** ** What a successful [update] changes *)

Section UpdateFrame.
Context `{C : Collaborator}.
Import Mongo.

(** when no document is refused, every matching one is updated *)
Lemma set_matching_accepted q nv (ds : list Doc) :
  (set_matching q nv ds).2 = None →
  (set_matching q nv ds).1 = (λ d, if matches q d then apply_set nv d else d) <$> ds ∧
  Forall (λ d, write_error nv d = None) (filter (λ d, matches q d) ds).
Proof.
  induction ds as [|d ds IH]; [done|]. cbn [set_matching].
  destruct (matches q d) eqn:Em.
  - rewrite filter_cons_True by (by rewrite Em).
    destruct (write_error nv d) eqn:Ew; [by intros [=]|]. cbn [fst snd].
    intros [-> Hf]%IH. split; [rewrite fmap_cons; cbv beta; by rewrite Em|].
    by apply Forall_cons.
  - rewrite filter_cons_False by (rewrite Em; simpl; tauto). cbn [fst snd].
    intros [-> Hf]%IH. split; [rewrite fmap_cons; cbv beta; by rewrite Em|done].
Qed.

Lemma update_many_returns q nv upsert w r w' :
  update_many q nv upsert w = (Return r, w') →
  reachable (collection w) = true ∧
  u_acknowledged r = write_ack (collection w) ∧
  (∀ i d, docs (collection w) !! i = Some d →
     docs (collection w') !! i = Some (if matches q d then apply_set nv d else d)) ∧
  (∀ d, d ∈ docs (collection w) → matches q d = true → set_error nv d = None) ∧
  heap w' = heap w ∧ audits w' = audits w ∧ logged w' = logged w ∧
  wall w' = wall w ∧ ticks w' = ticks w ∧
  requests w' = requests w ++ [ReqUpdateMany q nv upsert].
Proof.
  unfold update_many, bind, ret, raise, gets, modify, send, fresh_oid. simpl.
  destruct (reachable (collection w)) eqn:Er; simpl; [|done].
  destruct (set_refused nv) eqn:Erf; [done|].
  destruct (filter (λ d, matches q d) (docs (collection w))) as [|h hit] eqn:Eh.
  - assert (Hno : ∀ d, d ∈ docs (collection w) → matches q d = false).
    { intros d Hd. destruct (matches q d) eqn:Em; [|done].
      assert (d ∈ filter (λ d, matches q d) (docs (collection w))) as Hin.
      { apply list_elem_of_filter. split; [by rewrite Em|done]. }
      rewrite Eh in Hin. by apply elem_of_nil in Hin. }
    destruct upsert.
    + destruct (set_error nv (upsert_seed q)); [done|].
      destruct (apply_set nv (upsert_seed q) !! "_id") as [v|]; simpl.
      * destruct (id_taken v _); [done|]. intros [= <- <-]. simpl.
        repeat split; auto.
        -- intros i d Hi.
           rewrite lookup_app_l by (by eapply lookup_lt_Some).
           rewrite Hi, Hno; [done|]. by eapply list_elem_of_lookup_2.
        -- intros d Hd Hm. by rewrite Hno in Hm.
      * destruct (id_taken _ _); [done|]. intros [= <- <-]. simpl.
        repeat split; auto.
        -- intros i d Hi.
           rewrite lookup_app_l by (by eapply lookup_lt_Some).
           rewrite Hi, Hno; [done|]. by eapply list_elem_of_lookup_2.
        -- intros d Hd Hm. by rewrite Hno in Hm.
    + destruct ((set_matching q nv (docs (collection w))).2) eqn:Es; [done|].
      apply set_matching_accepted in Es as [Hds _].
      intros [= <- <-]. simpl. repeat split; auto.
      * intros i d Hi. by rewrite Hds, list_lookup_fmap, Hi.
      * intros d Hd Hm. by rewrite Hno in Hm.
  - destruct ((set_matching q nv (docs (collection w))).2) eqn:Es; [done|].
    apply set_matching_accepted in Es as [Hds Hacc].
    intros [= <- <-]. simpl. repeat split; auto.
    + intros i d Hi. by rewrite Hds, list_lookup_fmap, Hi.
    + intros d Hd Hm. rewrite Eh in Hacc.
      assert (d ∈ h :: hit) as Hin.
      { rewrite <- Eh. apply list_elem_of_filter. by rewrite Hm. }
      apply (proj1 (Forall_forall _ _) Hacc) in Hin.
      unfold write_error in Hin. by case_decide.
Qed.


(** a successful [update], read backwards.  When the caller passes one dict
    as both arguments, the filter the collaborator receives already carries
    the time stamp. *)
Lemma update_returns w lq lnv q nv upsert actor out w' :
  heap w !! lq = Some q →
  heap w !! lnv = Some nv →
  AnimalShelter.update (PyDict lq) (PyDict lnv) upsert actor w = (Return out, w') →
  let now := wall w (ticks w) in
  let nv' := <["last_modified_timestamp" := VTime now]> nv in
  let q' := if decide (lq = lnv) then nv' else q in
  q ≠ ∅ ∧ nv ≠ ∅ ∧
  heap w' = <[lnv := nv']> (heap w) ∧
  (∀ i d, docs (collection w) !! i = Some d →
     docs (collection w') !! i = Some (if matches q' d then apply_set nv' d else d)) ∧
  (∀ d, d ∈ docs (collection w) → matches q' d = true → set_error nv' d = None) ∧
  ∃ e, requests w' = requests w ++ [ReqUpdateMany q' nv' upsert; ReqAuditInsert e].
Proof.
  intros Eq Env. unfold AnimalShelter.update, AnimalShelter.logged_as, try_except.
  rewrite run_bind, (run_require_dict _ _ _ _ _ Eq).
  destruct (dict_truthy q) eqn:Edq; cbn [negb andb]; [|done].
  rewrite run_bind, (run_require_dict _ _ _ _ _ Env).
  destruct (dict_truthy nv) eqn:Ednv; cbn [negb andb]; [|done].
  rewrite run_bind. unfold AnimalShelter._utcnow at 1.
  rewrite run_bind. unfold setitem at 1, modify at 1.
  set (now := wall w (ticks w)).
  set (nv' := <["last_modified_timestamp" := VTime now]> nv).
  set (w1 := set_heap _ _).
  assert (Hh1 : heap w1 = <[lnv := nv']> (heap w)).
  { subst w1 nv'. simpl. by rewrite (lookup_total_correct _ _ _ Env). }
  assert (E1nv : heap w1 !! lnv = Some nv') by (by rewrite Hh1, lookup_insert_eq).
  assert (E1q : heap w1 !! lq = Some (if decide (lq = lnv) then nv' else q)).
  { rewrite Hh1. case_decide as Hl; [subst lq; by rewrite lookup_insert_eq|].
    by rewrite lookup_insert_ne. }
  rewrite run_bind, (run_getdict _ _ _ E1q).
  rewrite run_bind, (run_getdict _ _ _ E1nv).
  rewrite run_bind.
  destruct (update_many _ nv' upsert w1) as [[r|e] w2] eqn:Eu; [|by destruct e].
  apply update_many_returns in Eu as (Hr & Hack & Hdocs & Hok & Hh & Ha & Hl & Hw & Hti & Hq).
  rewrite run_bind. unfold matched_count, modified_count, upserted_id.
  destruct (u_acknowledged r) eqn:Eack; [|done].
  unfold ret at 1. rewrite run_bind. unfold ret at 1. rewrite run_bind.
  unfold ret at 1. rewrite run_bind.
  match goal with
  | |- context [AnimalShelter._audit ?a ?dt ?ww] =>
      destruct (run_audit a dt ww) as (w3 & Ea & Hh3 & Hc3 & Hw3 & Hti3 & Ho3 & Hq3 & _);
      rewrite Ea
  end.
  unfold ret. intros [= <- <-].
  split; [by apply dict_truthy_true|]. split; [by apply dict_truthy_true|].
  split. { by rewrite Hh3, Hh. }
  split. { intros i d Hi. rewrite Hc3. by apply Hdocs. }
  split. { done. }
  eexists. rewrite Hq3, Hq. subst w1. simpl. by rewrite <- app_assoc.
Qed.

(** C5: an [update] that returns leaves every stored record either as it
    was (when it does not satisfy the filter) or changed in the fields named
    in [new_values] and in [last_modified_timestamp] only, the latter set to
    the clock reading taken in the call whatever the caller had put there.
    A key of [new_values] names the top-level field it addresses: itself,
    or for a dotted path the part before the first dot.  A key that is a
    field name gives the field its value; a top-level field that no key
    addresses is as it was.
    Here [q'] is the filter as the collaborator receives it: the caller's
    [query], unless the caller passed the very same dict as [new_values]. *)
Theorem update_changes_only_named_fields w lq lnv q nv upsert actor out w' :
  heap w !! lq = Some q →
  heap w !! lnv = Some nv →
  AnimalShelter.update (PyDict lq) (PyDict lnv) upsert actor w = (Return out, w') →
  let now := wall w (ticks w) in
  let q' := if decide (lq = lnv) then <["last_modified_timestamp" := VTime now]> nv else q in
  q ≠ ∅ ∧ nv ≠ ∅ ∧
  ∀ i d, docs (collection w) !! i = Some d →
    ∃ d', docs (collection w') !! i = Some d' ∧
      (matches q' d = false → d' = d) ∧
      (matches q' d = true →
         d' !! "last_modified_timestamp" = Some (VTime now) ∧
         ∀ k v, k ≠ "last_modified_timestamp" → field_root k = k →
                nv !! k = Some v → d' !! k = Some v) ∧
      (∀ k, k ≠ "last_modified_timestamp" →
            (∀ k', is_Some (nv !! k') → field_root k' ≠ k) → d' !! k = d !! k).
Proof.
  intros Eq Env Hu now q'.
  destruct (update_returns _ _ _ _ _ _ _ _ _ Eq Env Hu)
    as (Hq & Hnv & _ & Hdocs & Hok & _).
  split; [done|]. split; [done|].
  intros i d Hi. eexists. split; [by apply Hdocs|].
  fold now. fold q'. destruct (matches q' d) eqn:Em.
  - assert (Hacc : set_error (<["last_modified_timestamp" := VTime now]> nv) d = None).
    { apply Hok; [by eapply list_elem_of_lookup_2|done]. }
    split; [done|]. split.
    + intros _. split.
      * apply apply_set_named; [done|reflexivity|by rewrite lookup_insert_eq].
      * intros k v Hk Hr Hv. apply apply_set_named; [done..|].
        by rewrite lookup_insert_ne.
    + intros k Hk Hv. apply apply_set_frame; [done|].
      intros k' [v' Hk']. destruct (decide (k' = "last_modified_timestamp")) as [->|Hne].
      * intros <-. by apply Hk.
      * rewrite lookup_insert_ne in Hk' by done. apply Hv. by rewrite Hk'.
  - split; [done|]. split; [done|]. done.
Qed.

End UpdateFrame.

Lemma update_changes_only_named_fields_witness :
  let w := world_with [imported; stamped] true in
  let r := AnimalShelter.update (C := reference_collaborator)
             (PyDict 2) (PyDict 3) false (Some "vet") w in
  ({[ "animal_type" := VStr "Dog" ]} : Doc) ≠ ∅ ∧
  ({[ "breed" := VStr "Hound" ]} : Doc) ≠ ∅ ∧
  ∀ i d, [imported; stamped] !! i = Some d →
    ∃ d', docs (collection r.2) !! i = Some d' ∧
      (eq_matches {[ "animal_type" := VStr "Dog" ]} d = false → d' = d) ∧
      (eq_matches {[ "animal_type" := VStr "Dog" ]} d = true →
         d' !! "last_modified_timestamp" = Some (VTime 1000) ∧
         ∀ k v, k ≠ "last_modified_timestamp" → field_root k = k →
                ({[ "breed" := VStr "Hound" ]} : Doc) !! k = Some v → d' !! k = Some v) ∧
      (∀ k, k ≠ "last_modified_timestamp" →
            (∀ k', is_Some (({[ "breed" := VStr "Hound" ]} : Doc) !! k') →
                   field_root k' ≠ k) →
            d' !! k = d !! k).
Proof.
  intros w r.
  apply (update_changes_only_named_fields (C := reference_collaborator)
           w 2 3 {[ "animal_type" := VStr "Dog" ]} {[ "breed" := VStr "Hound" ]}
           false (Some "vet") (returned ∅ r) r.2).
  - reflexivity.
  - reflexivity.
  - vm_compute. reflexivity.
Defined.

(** ** The caller's dicts after the call *)

Section Aliasing.
Context `{C : Collaborator}.

(** C9: [create] and [update] write into the dict objects they are given.
    After a [create] that returns, the caller's [data] dict carries
    [created_timestamp] (the clock reading of the call) and is otherwise as
    before, up to the [_id] the driver adds; after an [update] that returns,
    the caller's [new_values] dict is the one passed in with
    [last_modified_timestamp] set. *)
Theorem arguments_mutated_in_place :
  (∀ w l d actor out w',
     heap w !! l = Some d →
     AnimalShelter.create (PyDict l) actor w = (Return out, w') →
     ∃ d', heap w' !! l = Some d' ∧
       d' !! "created_timestamp" = Some (VTime (wall w (ticks w))) ∧
       ∀ k, k ≠ "_id" → k ≠ "created_timestamp" → d' !! k = d !! k) ∧
  (∀ w lq lnv q nv upsert actor out w',
     heap w !! lq = Some q →
     heap w !! lnv = Some nv →
     AnimalShelter.update (PyDict lq) (PyDict lnv) upsert actor w = (Return out, w') →
     heap w' !! lnv = Some (<["last_modified_timestamp" := VTime (wall w (ticks w))]> nv)).
Proof.
  split.
  - intros w l d actor out w' E Hc.
    destruct (create_returns _ _ _ _ _ _ E Hc)
      as (stored & id & _ & _ & _ & _ & Hts & Hk & _ & _ & Hh & _).
    exists stored. rewrite Hh, lookup_insert_eq. auto.
  - intros w lq lnv q nv upsert actor out w' Eq Env Hu.
    destruct (update_returns _ _ _ _ _ _ _ _ _ Eq Env Hu) as (_ & _ & Hh & _).
    by rewrite Hh, lookup_insert_eq.
Qed.

End Aliasing.

Lemma arguments_mutated_in_place_witness :
  (rex !! "created_timestamp" = None ∧
   ∃ d', heap (AnimalShelter.create (PyDict 0) None (world_with [imported] true)).2 !! 0
           = Some d' ∧
     d' !! "created_timestamp" = Some (VTime 1000) ∧
     ∀ k, k ≠ "_id" → k ≠ "created_timestamp" → d' !! k = rex !! k) ∧
  heap (AnimalShelter.update (C := reference_collaborator) (PyDict 2) (PyDict 3) false None
          (world_with [imported; stamped] true)).2 !! 3
    = Some (<["last_modified_timestamp" := VTime 1000]> {[ "breed" := VStr "Hound" ]}).
Proof.
  split; [split; [reflexivity|]|].
  - apply (proj1 (arguments_mutated_in_place (C := reference_collaborator))
             (world_with [imported] true) 0 rex None
             (returned ∅ (AnimalShelter.create (PyDict 0) None (world_with [imported] true)))
             (AnimalShelter.create (PyDict 0) None (world_with [imported] true)).2).
    + reflexivity.
    + vm_compute. reflexivity.
  - apply (proj2 (arguments_mutated_in_place (C := reference_collaborator))
             (world_with [imported; stamped] true) 2 3
             {[ "animal_type" := VStr "Dog" ]} {[ "breed" := VStr "Hound" ]} false None
             (returned ∅ (AnimalShelter.update (C := reference_collaborator)
                            (PyDict 2) (PyDict 3) false None
                            (world_with [imported; stamped] true)))).
    + reflexivity.
    + reflexivity.
    + vm_compute. reflexivity.
Defined.

(** ** The audit trail is best effort *)

Section AuditIsolation.
Context `{C : Collaborator}.
Import Mongo.

Lemma blind_ret {A} (a : A) : audit_blind (ret a).
Proof. by intros w1 w2 Hw. Qed.

Lemma blind_raise {A} e : audit_blind (raise (A := A) e).
Proof. by intros w1 w2 Hw. Qed.

Lemma blind_bind {A B} (m : Py A) (k : A → Py B) :
  audit_blind m → (∀ a, audit_blind (k a)) → audit_blind (bind m k).
Proof.
  intros Hm Hk w1 w2 Hw. unfold bind.
  destruct (Hm w1 w2 Hw) as [E1 E2].
  destruct (m w1) as [[a1|e1] v1], (m w2) as [[a2|e2] v2]; simpl in *; simplify_eq.
  - by apply Hk.
  - done.
Qed.

Lemma blind_try_except {A} (m : Py A) (h : Exn → Py A) :
  audit_blind m → (∀ e, audit_blind (h e)) → audit_blind (try_except m h).
Proof.
  intros Hm Hh w1 w2 Hw. unfold try_except.
  destruct (Hm w1 w2 Hw) as [E1 E2].
  destruct (m w1) as [[a1|e1] v1], (m w2) as [[a2|e2] v2]; simpl in *; simplify_eq.
  - done.
  - by apply Hh.
Qed.

Lemma blind_gets {A} (f : World → A) :
  (∀ w1 w2, same_but_audit w1 w2 → f w1 = f w2) → audit_blind (gets f).
Proof. intros Hf w1 w2 Hw. unfold gets. simpl. split; [f_equal; by apply Hf|done]. Qed.

Lemma blind_modify (f : World → World) :
  (∀ w1 w2, same_but_audit w1 w2 → same_but_audit (f w1) (f w2)) → audit_blind (modify f).
Proof. intros Hf w1 w2 Hw. unfold modify. simpl. split; [done|by apply Hf]. Qed.

Lemma blind_log lvl msg : audit_blind (log lvl msg).
Proof. apply blind_modify. by intros w1 w2 Hw. Qed.

Lemma blind_send r : audit_blind (send r).
Proof. apply blind_modify. by intros w1 w2 Hw. Qed.

Lemma blind_utcnow : audit_blind AnimalShelter._utcnow.
Proof.
  intros w1 w2 (Hh & Hc & Hw & Ht & Ho). unfold AnimalShelter._utcnow. simpl.
  rewrite Hw, Ht. split; [done|]. repeat split; simpl; congruence.
Qed.

Lemma blind_getdict l : audit_blind (getdict l).
Proof. apply blind_gets. intros w1 w2 (Hh & _). by rewrite Hh. Qed.

Lemma blind_setitem l k v : audit_blind (setitem l k v).
Proof.
  apply blind_modify. intros w1 w2 (Hh & Hc & Hw & Ht & Ho).
  repeat split; simpl; congruence.
Qed.

Lemma blind_fresh_oid : audit_blind fresh_oid.
Proof.
  intros w1 w2 (Hh & Hc & Hw & Ht & Ho). unfold fresh_oid. simpl.
  rewrite Ho. split; [done|]. repeat split; simpl; congruence.
Qed.

Lemma blind_collection : audit_blind (gets collection).
Proof. apply blind_gets. by intros w1 w2 (_ & Hc & _). Qed.

Lemma blind_set_collection c : audit_blind (modify (set_collection c)).
Proof.
  apply blind_modify. intros w1 w2 (Hh & Hc & Hw & Ht & Ho).
  repeat split; simpl; congruence.
Qed.

(** [_audit] is where the audit collection is read; its result does not
    depend on it. *)
Lemma blind_audit action details : audit_blind (AnimalShelter._audit action details).
Proof.
  intros w1 w2 (Hh & Hc & Hw & Ht & Ho).
  destruct (run_audit action details w1) as (v1 & -> & Hh1 & Hc1 & Hw1 & Ht1 & Ho1 & _).
  destruct (run_audit action details w2) as (v2 & -> & Hh2 & Hc2 & Hw2 & Ht2 & Ho2 & _).
  simpl. split; [done|]. repeat split; congruence.
Qed.

(** one step through a computation, by its head; [other] is tried on the
    calls that are not primitive *)
Ltac blind_step other :=
  cbv beta zeta;
  lazymatch goal with
  | |- audit_blind (bind _ _) => apply blind_bind; [|intros ?]
  | |- audit_blind (try_except _ _) => apply blind_try_except; [|intros ?]
  | |- audit_blind (ret _) => apply blind_ret
  | |- audit_blind (raise _) => apply blind_raise
  | |- audit_blind (log _ _) => apply blind_log
  | |- audit_blind (send _) => apply blind_send
  | |- audit_blind AnimalShelter._utcnow => apply blind_utcnow
  | |- audit_blind (getdict _) => apply blind_getdict
  | |- audit_blind (setitem _ _ _) => apply blind_setitem
  | |- audit_blind fresh_oid => apply blind_fresh_oid
  | |- audit_blind (gets collection) => apply blind_collection
  | |- audit_blind (modify (set_collection _)) => apply blind_set_collection
  | |- audit_blind (AnimalShelter._audit _ _) => apply blind_audit
  | |- audit_blind (if ?b then _ else _) => destruct b
  | |- audit_blind (match ?x with _ => _ end) => destruct x
  | |- _ => other
  end.

Lemma blind_insert_one l : audit_blind (insert_one l).
Proof. unfold insert_one. repeat blind_step fail. Qed.

Lemma blind_update_many q nv upsert : audit_blind (update_many q nv upsert).
Proof. unfold update_many. repeat blind_step fail. Qed.

Lemma blind_delete_many q : audit_blind (delete_many q).
Proof. unfold delete_many. repeat blind_step fail. Qed.

Lemma blind_create data actor : audit_blind (AnimalShelter.create data actor).
Proof.
  unfold AnimalShelter.create, AnimalShelter.logged_as,
    AnimalShelter._require_dict, AnimalShelter._validate_required_fields.
  repeat blind_step ltac:(apply blind_insert_one).
Qed.

Lemma blind_update query new_values upsert actor :
  audit_blind (AnimalShelter.update query new_values upsert actor).
Proof.
  unfold AnimalShelter.update, AnimalShelter.logged_as, AnimalShelter._require_dict,
    matched_count, modified_count, upserted_id.
  repeat blind_step ltac:(apply blind_update_many).
Qed.

Lemma blind_delete query actor confirm :
  audit_blind (AnimalShelter.delete query actor confirm).
Proof.
  unfold AnimalShelter.delete, AnimalShelter.logged_as, AnimalShelter._require_dict,
    deleted_count.
  repeat blind_step ltac:(apply blind_delete_many).
Qed.

(** C7: the outcome of [create], [update] and [delete] (the value returned
    or the exception raised), the primary collection and the caller's dicts
    after the call do not depend on the audit collection: a call whose audit
    write fails ends exactly like the same call with a working audit
    collection.  The failed audit write itself returns normally, leaves the
    primary collection as written, and is logged as a warning. *)
Theorem audit_failure_never_surfaces w1 w2 :
  same_but_audit w1 w2 →
  (∀ data actor,
     (AnimalShelter.create data actor w1).1 = (AnimalShelter.create data actor w2).1 ∧
     same_but_audit (AnimalShelter.create data actor w1).2
                    (AnimalShelter.create data actor w2).2) ∧
  (∀ query new_values upsert actor,
     (AnimalShelter.update query new_values upsert actor w1).1
       = (AnimalShelter.update query new_values upsert actor w2).1 ∧
     same_but_audit (AnimalShelter.update query new_values upsert actor w1).2
                    (AnimalShelter.update query new_values upsert actor w2).2) ∧
  (∀ query actor confirm,
     (AnimalShelter.delete query actor confirm w1).1
       = (AnimalShelter.delete query actor confirm w2).1 ∧
     same_but_audit (AnimalShelter.delete query actor confirm w1).2
                    (AnimalShelter.delete query actor confirm w2).2) ∧
  (∀ action details,
     audit_reachable (audits w1) = false →
     ∃ w', AnimalShelter._audit action details w1 = (Return tt, w') ∧
       collection w' = collection w1 ∧
       heap w' = heap w1 ∧
       audits w' = audits w1 ∧
       logged w' = logged w1 ++
         [(WARNING, "audit_failed action=" +:+ action +:+ " error=" +:+ str_exn server_down)]).
Proof.
  intros Hw. split; [|split; [|split]].
  - intros data actor. by apply blind_create.
  - intros query new_values upsert actor. by apply blind_update.
  - intros query actor confirm. by apply blind_delete.
  - intros action details Ha.
    destruct (run_audit action details w1) as (w' & E & Hh & Hc & _ & _ & _ & _ & Hl).
    rewrite Ha in Hl. destruct Hl as [Hau Hlog].
    exists w'. by repeat split.
Qed.

End AuditIsolation.

Lemma audit_failure_never_surfaces_witness :
  let w1 := world_with [imported] false in
  let w2 := world_with [imported] true in
  (∀ data actor,
     (AnimalShelter.create data actor w1).1 = (AnimalShelter.create data actor w2).1 ∧
     same_but_audit (AnimalShelter.create data actor w1).2
                    (AnimalShelter.create data actor w2).2) ∧
  (∀ query new_values upsert actor,
     (AnimalShelter.update (C := reference_collaborator) query new_values upsert actor w1).1
       = (AnimalShelter.update (C := reference_collaborator) query new_values upsert actor w2).1 ∧
     same_but_audit (AnimalShelter.update (C := reference_collaborator) query new_values upsert actor w1).2
                    (AnimalShelter.update (C := reference_collaborator) query new_values upsert actor w2).2) ∧
  (∀ query actor confirm,
     (AnimalShelter.delete (C := reference_collaborator) query actor confirm w1).1
       = (AnimalShelter.delete (C := reference_collaborator) query actor confirm w2).1 ∧
     same_but_audit (AnimalShelter.delete (C := reference_collaborator) query actor confirm w1).2
                    (AnimalShelter.delete (C := reference_collaborator) query actor confirm w2).2) ∧
  (∀ action details,
     audit_reachable (audits w1) = false →
     ∃ w', AnimalShelter._audit action details w1 = (Return tt, w') ∧
       collection w' = collection w1 ∧
       heap w' = heap w1 ∧
       audits w' = audits w1 ∧
       logged w' = logged w1 ++
         [(WARNING, "audit_failed action=" +:+ action +:+ " error=" +:+
                    str_exn Mongo.server_down)]).
Proof.
  intros w1 w2.
  apply (audit_failure_never_surfaces (C := reference_collaborator) w1 w2).
  repeat split.
Defined.

(** ** Reading *)

Section Reading.
Context `{C : Collaborator}.
Import Mongo.

Lemma run_list_cursor cur w :
  list_cursor cur w =
    let w1 := set_requests (requests w ++ [ReqFind cur]) w in
    if reachable (collection w)
    then match ordered (c_sort cur)
                 (filter (λ d, matches (c_filter cur) d) (docs (collection w))) with
         | Return ds => (Return (projected (c_projection cur) (limited (c_limit cur) ds)), w1)
         | Raise e => (Raise e, w1)
         end
    else (Raise server_down, w1).
Proof.
  unfold list_cursor, bind, ret, raise, gets, modify, send. simpl.
  destruct (reachable (collection w)); simpl; [|done].
  by destruct (ordered _ _).
Qed.

Lemma limited_nonpositive n (ds : list Doc) : (n ≤ 0)%Z → limited n ds = ds.
Proof. intros Hn. unfold limited. by rewrite bool_decide_eq_false_2 by lia. Qed.

Lemma read_runs w query projection n sf so q :
  filter_of w query = Some q →
  AnimalShelter.read query projection n sf so w =
    AnimalShelter.logged_as "read_failed"
      (let* results := list_cursor (read_cursor q (projection_of w projection) n sf so) in
       log INFO ("read count=" +:+ pretty (length results)) >> ret results) w.
Proof.
  intros Hq. unfold AnimalShelter.read, AnimalShelter.logged_as, try_except.
  assert (Hcur : (let cur := find q (projection_of w projection) in
                  let cur := match sf with
                             | Some f => if negb (String.eqb f "") then sort f so cur else cur
                             | None => cur
                             end in
                  if negb (n =? 0)%Z && (0 <? n)%Z then limit n cur else cur)
                 = read_cursor q (projection_of w projection) n sf so).
  { unfold read_cursor, sort_of, find, sort, limit. simpl.
    destruct sf as [f|]; [destruct (String.eqb f "")|]; simpl;
      case_bool_decide; destruct (Z.eqb_spec n 0), (Z.ltb_spec 0 n); simpl; try lia; done. }
  rewrite <- Hcur. clear Hcur.
  destruct query; simplify_eq/=; try done.
  - destruct projection; try done.
  - destruct projection; try done.
Qed.

Lemma filter_matches_empty (ds : list Doc) : filter (λ d, matches ∅ d) ds = ds.
Proof.
  induction ds as [|d ds IH]; [done|].
  rewrite filter_cons_True by (by rewrite matches_empty). by rewrite IH.
Qed.

Lemma ordered_Permutation s (ds sorted : list Doc) :
  ordered s ds = Return sorted → sorted ≡ₚ ds.
Proof.
  unfold ordered. destruct s as [[f o]|]; [|intros [= <-]; reflexivity].
  repeat case_bool_decide; intros [= <-]; apply merge_sort_Permutation.
Qed.



Lemma projected_length p (ds : list Doc) : length (projected p ds) = length ds.
Proof. destruct p; simpl; [apply length_fmap|done]. Qed.

Lemma read_cursor_limited q p n sf so (ds : list Doc) :
  limited (c_limit (read_cursor q p n sf so)) ds = limited n ds.
Proof.
  unfold read_cursor, limited. simpl.
  destruct (decide (0 < n)%Z) as [Hn|Hn].
  - by rewrite !(bool_decide_eq_true_2 _ Hn).
  - rewrite !(bool_decide_eq_false_2 _ Hn). by rewrite bool_decide_eq_false_2 by lia.
Qed.

Lemma read_returns w query projection n sf so rs w' :
  AnimalShelter.read query projection n sf so w = (Return rs, w') →
  ∃ q sorted,
    filter_of w query = Some q ∧
    reachable (collection w) = true ∧
    ordered (sort_of sf so) (filter (λ d, matches q d) (docs (collection w))) = Return sorted ∧
    rs = projected (projection_of w projection) (limited n sorted).
Proof.
  destruct (filter_of w query) as [q|] eqn:Hq.
  - rewrite (read_runs _ _ _ _ _ _ _ Hq).
    unfold AnimalShelter.logged_as, try_except. rewrite run_bind, run_list_cursor.
    cbv zeta. destruct (reachable (collection w)) eqn:Hr; [|done].
    change (c_sort (read_cursor q (projection_of w projection) n sf so)) with (sort_of sf so).
    change (c_filter (read_cursor q (projection_of w projection) n sf so)) with q.
    destruct (ordered _ _) as [sorted|e] eqn:Ho; [|by destruct e].
    rewrite read_cursor_limited.
    unfold bind, log, modify, ret. simpl. intros [= <- <-]. by exists q, sorted.
  - unfold AnimalShelter.read, AnimalShelter.logged_as, try_except.
    destruct query; simplify_eq/=; done.
Qed.





End Reading.



(** ** Statistics *)

Section Statistics.
Context `{C : Collaborator}.
Import Mongo.

Global Instance key_desc_total f : Total (key_desc f).
Proof.
  intros d1 d2. unfold key_desc.
  destruct (key_le_total (d2 !! f) (d1 !! f)) as [E|E]; rewrite E; auto.
Qed.

Global Instance key_desc_trans f : Transitive (key_desc f).
Proof.
  intros d1 d2 d3. unfold key_desc. intros H1%Is_true_true H2%Is_true_true.
  apply Is_true_true. by eapply key_le_trans.
Qed.




End Statistics.



(** ** The guard on [confirm_delete] is never reached *)

Section DeadGuard.
Context `{C : Collaborator}.
Import Mongo.

(** X16: whatever the arguments, [delete] never raises the guard's own
    error: an empty filter is stopped by [_require_dict], and a filter that
    passes [_require_dict] is not empty. *)
Lemma delete_guard_never_fires query actor confirm w :
  (AnimalShelter.delete query actor confirm w).1 ≠
    Raise (ValueError "refusing to delete all documents; pass confirm_delete=False to override").
Proof.
  unfold AnimalShelter.delete, AnimalShelter.logged_as, try_except.
  rewrite run_bind.
  destruct query as [| | | | |l]; try done.
  unfold AnimalShelter._require_dict. rewrite run_bind. unfold getdict at 1, gets at 1.
  cbn [negb andb].
  destruct (dict_truthy (heap w !!! l)) eqn:Ed; cbn [negb]; [|done].
  unfold ret at 1. rewrite run_bind. unfold getdict at 1, gets at 1.
  rewrite run_bind, Ed. cbn [negb andb]. unfold ret at 1.
  rewrite run_bind.
  destruct (delete_many (heap w !!! l) w) as [[r|e] w1] eqn:Edm.
  - rewrite run_bind. unfold deleted_count.
    destruct (d_acknowledged r); [|done].
    unfold ret at 1. rewrite run_bind.
    match goal with
    | |- context [AnimalShelter._audit ?a ?dt ?ww] =>
        destruct (run_audit a dt ww) as (w3 & -> & _)
    end.
    done.
  - assert (e = server_down) as ->.
    { revert Edm. unfold delete_many, bind, send, modify, gets, raise, ret. simpl.
      destruct (reachable (collection w)); simpl; congruence. }
    done.
Qed.

End DeadGuard.

(** ** The first version behaves alike

    The guard, the in-place stamping and the unchecked projection were
    already there in [AnimalShelter.py]. *)

Section OriginalVersion.
Context `{C : Collaborator}.
Import Mongo.

(** X29: in the first version too an empty filter is refused whatever
    [confirm_delete] says, because [if not query] comes before the guard;
    nothing is sent. *)
Lemma original_delete_empty_query w l confirm :
  heap w !! l = Some ∅ →
  Original.delete (PyDict l) confirm w =
    (Raise (Exception "Delete operation failed: 'query' parameter is empty or None"), w).
Proof.
  intros E. unfold Original.delete, Original.truthy.
  by rewrite run_bind, run_bind, (run_getdict _ _ _ E).
Qed.

(** after a [create] that returns, the caller's dict carries the local time
    of the call as [created_timestamp] *)
Lemma original_create_mutates w l d b w' :
  heap w !! l = Some d →
  Original.create (PyDict l) w = (Return b, w') →
  ∃ d', heap w' !! l = Some d' ∧
    d' !! "created_timestamp" = Some (VTime (wall w (ticks w) + utc_offset w)) ∧
    ∀ k, k ≠ "_id" → k ≠ "created_timestamp" → d' !! k = d !! k.
Proof.
  intros E. unfold Original.create, Original.truthy.
  rewrite run_bind, run_bind, (run_getdict _ _ _ E). unfold ret at 1.
  destruct (dict_truthy d); cbn [negb]; [|done].
  rewrite run_bind, (run_getdict _ _ _ E).
  destruct (filter _ _); [|done].
  unfold Original.wrapped, try_except.
  rewrite run_bind. unfold Original.datetime_now at 1.
  rewrite run_bind. unfold setitem at 1, modify at 1.
  rewrite run_bind.
  set (now := (wall w (ticks w) + utc_offset w)%Z).
  set (w1 := set_heap _ _).
  assert (E1 : heap w1 !! l = Some (<["created_timestamp" := VTime now]> d)).
  { subst w1. simpl. by rewrite lookup_insert_eq, (lookup_total_correct _ _ _ E). }
  destruct (insert_one l w1) as [[r|e] w2] eqn:Ei; [|done].
  destruct (insert_one_returns _ _ _ _ _ E1 Ei)
    as (stored & id & Hid & Hk & Hd & -> & Hr & Ht & Hc & Hh & _).
  assert (Hfinal : heap w2 !! l = Some stored).
  { by rewrite Hh, lookup_insert_eq. }
  assert (Hstored : stored !! "created_timestamp" = Some (VTime now) ∧
            ∀ k, k ≠ "_id" → k ≠ "created_timestamp" → stored !! k = d !! k).
  { split.
    - rewrite Hk by done. by rewrite lookup_insert_eq.
    - intros k H1 H2. rewrite Hk by done. by rewrite lookup_insert_ne. }
  cbn [i_acknowledged].
  destruct (write_ack (collection w1)).
  - rewrite run_bind, (run_getdict _ _ _ Hfinal).
    unfold bind, print, modify, ret. simpl. intros [= <- <-]. simpl. eauto.
  - unfold bind, print, modify, ret. simpl. intros [= <- <-]. simpl. eauto.
Qed.

(** after an [update] that returns, the caller's [new_values] dict carries
    [last_modified_timestamp] *)
Lemma original_update_mutates w lq lnv q nv upsert out w' :
  heap w !! lq = Some q →
  heap w !! lnv = Some nv →
  Original.update (PyDict lq) (PyDict lnv) upsert w = (Return out, w') →
  heap w' !! lnv =
    Some (<["last_modified_timestamp" := VTime (wall w (ticks w) + utc_offset w)]> nv).
Proof.
  intros Eq Env. unfold Original.update, Original.truthy.
  rewrite run_bind, run_bind, (run_getdict _ _ _ Eq). unfold ret at 1.
  destruct (dict_truthy q); cbn [negb]; [|done].
  rewrite run_bind, run_bind, (run_getdict _ _ _ Env). unfold ret at 1.
  destruct (dict_truthy nv); cbn [negb]; [|done].
  unfold Original.wrapped, try_except.
  rewrite run_bind. unfold Original.datetime_now at 1.
  rewrite run_bind. unfold setitem at 1, modify at 1.
  set (now := (wall w (ticks w) + utc_offset w)%Z).
  set (nv' := <["last_modified_timestamp" := VTime now]> nv).
  set (w1 := set_heap _ _).
  assert (Hh1 : heap w1 = <[lnv := nv']> (heap w)).
  { subst w1 nv'. simpl. by rewrite (lookup_total_correct _ _ _ Env). }
  assert (E1nv : heap w1 !! lnv = Some nv') by (by rewrite Hh1, lookup_insert_eq).
  assert (E1q : heap w1 !! lq = Some (if decide (lq = lnv) then nv' else q)).
  { rewrite Hh1. case_decide as Hl; [subst lq; by rewrite lookup_insert_eq|].
    by rewrite lookup_insert_ne. }
  rewrite run_bind, (run_getdict _ _ _ E1q).
  rewrite run_bind, (run_getdict _ _ _ E1nv).
  rewrite run_bind.
  destruct (update_many _ nv' upsert w1) as [[r|e] w2] eqn:Eu; [|done].
  apply update_many_returns in Eu as (_ & _ & _ & _ & Hh & _).
  rewrite run_bind. unfold matched_count, modified_count, upserted_id.
  destruct (u_acknowledged r) eqn:Eack; [|done].
  unfold bind, print, modify, ret. simpl. intros [= <- <-]. simpl.
  by rewrite Hh, Hh1, lookup_insert_eq.
Qed.

(** there too a [projection] that is not a dict is dropped without a word *)
Lemma original_read_ignores_non_dict_projection w query projection n sf so :
  (∀ p, projection ≠ PyDict p) →
  Original.read query projection n sf so w = Original.read query PyNone n sf so w.
Proof.
  intros Hp. unfold Original.read, Original.wrapped, try_except.
  rewrite !run_bind.
  destruct (match query with
            | PyNone => ret ∅
            | PyDict l => getdict l
            | _ => raise (Exception
                            "Read operation failed: 'query' parameter must be a dictionary")
            end w) as [[q|e] w1]; [|done].
  rewrite !run_bind.
  destruct projection as [|b|z|s|items|ref]; try reflexivity.
  by destruct (Hp ref).
Qed.

End OriginalVersion.

(** ** Worked examples on the reference collaborator *)

Section Examples.
Local Existing Instance reference_collaborator.

(** create, read back, delete, read again *)
Example round_trip :
  let w := world_with [] true in
  returned [] ((AnimalShelter.create (PyDict 0) None >>
                AnimalShelter.read (PyDict 6) PyNone 0 None 1) w)
    = [<["_id" := VOid 0]> (<["created_timestamp" := VTime 1000]> rex)] ∧
  returned ∅ ((AnimalShelter.create (PyDict 0) None >>
               AnimalShelter.delete (PyDict 6) None true) w)
    = {[ "ok" := VBool true; "deleted" := VInt 1 ]} ∧
  returned [imported] ((AnimalShelter.create (PyDict 0) None >>
                        AnimalShelter.delete (PyDict 6) None true >>
                        AnimalShelter.read (PyDict 6) PyNone 0 None 1) w)
    = [].
Proof. repeat split; vm_compute; reflexivity. Qed.

(** an update of the dogs: the cat is left alone, the dog gets the new breed
    and the time stamp *)
Example update_dogs :
  docs (collection (AnimalShelter.update (PyDict 2) (PyDict 3) false (Some "vet")
                      (world_with [imported; stamped] true)).2)
    = [imported;
       <["last_modified_timestamp" := VTime 1000]> (<["breed" := VStr "Hound"]> stamped)].
Proof. vm_compute. reflexivity. Qed.

(** a record made by [update] with [upsert=True] has no
    [created_timestamp]; [stats] then counts one record and reports no
    latest creation time *)
Example upsert_then_stats :
  returned ∅ ((AnimalShelter.update (PyDict 4) (PyDict 3) true None >>
               AnimalShelter.stats) (world_with [] true))
    = {[ "count" := VInt 1; "latest_created_timestamp" := VNone ]}.
Proof. vm_compute. reflexivity. Qed.

(** with the audit collection down, [create] returns as usual, the record is
    stored, and the log has one warning *)
Example create_with_audit_down :
  let r := AnimalShelter.create (PyDict 0) (Some "intake") (world_with [] false) in
  r.1 = Return {[ "ok" := VBool true; "inserted_id" := VStr "0" ]} ∧
  length (docs (collection r.2)) = 1 ∧
  logged r.2 = [(WARNING, "audit_failed action=CREATE error=ServerSelectionTimeoutError")].
Proof. repeat split; vm_compute; reflexivity. Qed.

(** the first version refuses the empty filter with or without the
    override *)
Example original_delete_override :
  (Original.delete (PyDict 1) false (world_with [imported; stamped] true)).1
    = Raise (Exception "Delete operation failed: 'query' parameter is empty or None").
Proof. vm_compute. reflexivity. Qed.

End Examples.

(** * Further properties of the code

    What follows covers the rest of the two files: how the methods fail,
    what they leave alone, how they compose, the constructor and [close],
    and the first version's methods. *)

(** ** Which exceptions come out, and what a failed call has done *)

Section ErrorClasses.
Context `{C : Collaborator}.
Import Mongo.

Lemma bind_raise_inv {A B} (m : Py A) (k : A → Py B) w e w' :
  bind m k w = (Raise e, w') →
  m w = (Raise e, w') ∨ ∃ a w1, m w = (Return a, w1) ∧ k a w1 = (Raise e, w').
Proof.
  unfold bind. destruct (m w) as [[a|e1] w1]; intros Hk; [right|left]; [|by simplify_eq].
  by exists a, w1.
Qed.

Lemma bind_return_inv {A B} (m : Py A) (k : A → Py B) w b w' :
  bind m k w = (Return b, w') →
  ∃ a w1, m w = (Return a, w1) ∧ k a w1 = (Return b, w').
Proof.
  unfold bind. destruct (m w) as [[a|e1] w1]; intros Hk; [|done].
  by exists a, w1.
Qed.

Lemma only_ret {A} P (a : A) : raises_only P (ret a).
Proof. by intros w e w'. Qed.

Lemma only_raise {A} (P : Exn → Prop) e : P e → raises_only P (raise (A := A) e).
Proof. intros He w e' w'. unfold raise. by intros [= <- <-]. Qed.

Lemma only_bind {A B} P (m : Py A) (k : A → Py B) :
  raises_only P m → (∀ a, raises_only P (k a)) → raises_only P (bind m k).
Proof.
  intros Hm Hk w e w' [Hr|(a & w1 & _ & Hr)]%bind_raise_inv; [by eapply Hm|by eapply Hk].
Qed.

Lemma only_gets {A} P (f : World → A) : raises_only P (gets f).
Proof. by intros w e w'. Qed.




Lemma only_audit P action details : raises_only P (AnimalShelter._audit action details).
Proof.
  intros w e w'. by destruct (run_audit action details w) as (v & -> & _).
Qed.












(** running [logged_as] when the body raises *)
Lemma logged_as_raise {A} tag (m : Py A) w e w1 :
  m w = (Raise e, w1) →
  AnimalShelter.logged_as tag m w =
    match e with
    | Exception _ => (Raise e, w1)
    | _ => (Raise e, set_logged (logged w1 ++ [(ERROR, tag +:+ " error=" +:+ str_exn e)]) w1)
    end.
Proof.
  intros Hm. unfold AnimalShelter.logged_as, try_except. rewrite Hm. by destruct e.
Qed.

Lemma logged_as_inv {A} tag (m : Py A) w r w' :
  AnimalShelter.logged_as tag m w = (r, w') →
  (∃ a, r = Return a ∧ m w = (Return a, w')) ∨
  (∃ e w1, r = Raise e ∧ m w = (Raise e, w1) ∧
     w' = match e with
          | Exception _ => w1
          | _ => set_logged (logged w1 ++ [(ERROR, tag +:+ " error=" +:+ str_exn e)]) w1
          end).
Proof.
  destruct (m w) as [[a|e] w1] eqn:Hm.
  - unfold AnimalShelter.logged_as, try_except. rewrite Hm. intros [= <- <-]. left. eauto.
  - rewrite (logged_as_raise _ _ _ _ _ Hm). right. exists e, w1.
    destruct e; simplify_eq; done.
Qed.




End ErrorClasses.

(** ** What the writes do, in full *)

Section Effects.
Context `{C : Collaborator}.
Import Mongo.

(** a successful [delete_many], read backwards *)
Lemma delete_many_returns q w r w' :
  delete_many q w = (Return r, w') →
  reachable (collection w) = true ∧
  r = mkDeleteResult (write_ack (collection w))
        (length (filter (λ d, matches q d) (docs (collection w)))) ∧
  collection w' = set_docs (filter (λ d, ¬ matches q d) (docs (collection w))) (collection w) ∧
  heap w' = heap w ∧ audits w' = audits w ∧ logged w' = logged w ∧ printed w' = printed w ∧
  wall w' = wall w ∧ ticks w' = ticks w ∧
  requests w' = requests w ++ [ReqDeleteMany q].
Proof.
  unfold delete_many, bind, ret, raise, gets, modify, send. simpl.
  destruct (reachable (collection w)) eqn:Er; simpl; [|done].
  intros [= <- <-]. by repeat split.
Qed.

(** what a [delete] that returns has done *)
Lemma delete_effect w l q actor confirm out w' :
  heap w !! l = Some q →
  AnimalShelter.delete (PyDict l) actor confirm w = (Return out, w') →
  let gone := filter (λ d, matches q d) (docs (collection w)) in
  let entry := mkAuditEntry "DELETE"
                 {[ "actor" := AnimalShelter.opt_str actor;
                    "deleted" := VInt (Z.of_nat (length gone)) ]} (wall w (ticks w)) in
  q ≠ ∅ ∧
  reachable (collection w) = true ∧
  write_ack (collection w) = true ∧
  collection w' = set_docs (filter (λ d, ¬ matches q d) (docs (collection w))) (collection w) ∧
  out = {[ "ok" := VBool true; "deleted" := VInt (Z.of_nat (length gone)) ]} ∧
  heap w' = heap w ∧
  requests w' = requests w ++ [ReqDeleteMany q; ReqAuditInsert entry] ∧
  if audit_reachable (audits w)
  then entries (audits w') = entries (audits w) ++ [entry] ∧ logged w' = logged w
  else audits w' = audits w ∧
       logged w' = logged w ++
         [(WARNING, "audit_failed action=DELETE error=" +:+ str_exn server_down)].
Proof.
  intros E [(a & [= <-] & Hbody)|(? & ? & ? & _)]%logged_as_inv; [|done].
  apply bind_return_inv in Hbody as (l' & w1 & Hr & Hbody).
  rewrite (run_require_dict _ _ _ _ _ E) in Hr. cbn [negb andb] in Hr.
  destruct (dict_truthy q) eqn:Eq; [|done]. injection Hr as <- <-.
  apply bind_return_inv in Hbody as (qd & w1 & Hg & Hbody).
  rewrite (run_getdict _ _ _ E) in Hg. injection Hg as <- <-.
  rewrite Eq in Hbody. cbn [negb andb] in Hbody.
  apply bind_return_inv in Hbody as (? & w1 & [= _ <-] & Hbody).
  apply bind_return_inv in Hbody as (r & w1 & Hd & Hbody).
  apply delete_many_returns in Hd as (Hr & -> & Hc & Hh & Ha & Hl & Hp & Hw & Ht & Hq).
  apply bind_return_inv in Hbody as (n & w2 & Hn & Hbody).
  unfold deleted_count in Hn. cbn [d_acknowledged d_deleted] in Hn.
  destruct (write_ack (collection w)) eqn:Eack; [|done]. injection Hn as <- <-.
  apply bind_return_inv in Hbody as ([] & w2 & Haud & [= <- <-]).
  match type of Haud with
  | AnimalShelter._audit ?a ?dt ?ww = _ =>
      destruct (run_audit a dt ww) as (w3 & Haud' & Hh3 & Hc3 & Hw3 & Ht3 & Ho3 & Hq3 & Hif)
  end.
  assert (w3 = w2) as -> by (rewrite Haud in Haud'; congruence).
  split; [by apply dict_truthy_true|]. split; [done|]. split; [done|].
  split; [by rewrite Hc3|]. split; [done|]. split; [by rewrite Hh3|].
  rewrite Hw, Ht in *. split.
  { rewrite Hq3, Hq. by rewrite <- app_assoc. }
  rewrite Ha in Hif.
  destruct (audit_reachable (audits w)); destruct Hif as [He Hlg];
    rewrite He, Hlg, ?Ha, Hl; done.
Qed.


(** what a [create] that returns has done, in full *)
Lemma create_effect w l d actor out w' :
  heap w !! l = Some d →
  AnimalShelter.create (PyDict l) actor w = (Return out, w') →
  ∃ stored id,
    let entry := mkAuditEntry "CREATE"
                   {[ "actor" := AnimalShelter.opt_str actor;
                      "inserted_id" := VStr (py_str id) ]} (wall w (S (ticks w))) in
    stored = <["_id" := id]> (<["created_timestamp" := VTime (wall w (ticks w))]> d) ∧
    (d !! "_id" = Some id ∨ d !! "_id" = None ∧ id = VOid (next_oid w)) ∧
    reachable (collection w) = true ∧
    id_taken id (docs (collection w)) = false ∧
    collection w' = set_docs (docs (collection w) ++ [stored]) (collection w) ∧
    heap w' = <[l := stored]> (heap w) ∧
    out = {[ "ok" := VBool (write_ack (collection w));
             "inserted_id" := VStr (py_str id) ]} ∧
    requests w' = requests w ++ [ReqInsertOne stored; ReqAuditInsert entry] ∧
    if audit_reachable (audits w)
    then entries (audits w') = entries (audits w) ++ [entry] ∧ logged w' = logged w
    else audits w' = audits w ∧
         logged w' = logged w ++
           [(WARNING, "audit_failed action=CREATE error=" +:+ str_exn server_down)].
Proof.
  intros E [(a & [= <-] & Hbody)|(? & ? & ? & _)]%logged_as_inv; [|done].
  apply bind_return_inv in Hbody as (l' & w1 & Hr & Hbody).
  rewrite (run_require_dict _ _ _ _ _ E) in Hr. cbn [negb andb] in Hr.
  destruct (dict_truthy d) eqn:Ed; [|done]. injection Hr as <- <-.
  apply bind_return_inv in Hbody as ([] & w1 & Hv & Hbody).
  assert (w1 = w) as ->.
  { revert Hv. unfold AnimalShelter._validate_required_fields, bind, getdict, gets, ret.
    destruct (AnimalShelter.missing_fields _ _); [|done]. by intros [= <-]. }
  clear Hv.
  apply bind_return_inv in Hbody as (now & w1 & [= <- <-] & Hbody).
  apply bind_return_inv in Hbody as ([] & w1 & Hs & Hbody).
  injection Hs as Hs.
  set (d1 := <["created_timestamp" := VTime (wall w (ticks w))]> d) in *.
  apply bind_return_inv in Hbody as (r & w2 & Hi & Hbody).
  assert (E1 : heap w1 !! l = Some d1).
  { subst w1. simpl. by rewrite lookup_insert_eq, (lookup_total_correct _ _ _ E). }
  assert (Hw1 : collection w1 = collection w ∧ requests w1 = requests w ∧
                audits w1 = audits w ∧ logged w1 = logged w ∧ wall w1 = wall w ∧
                ticks w1 = S (ticks w) ∧ next_oid w1 = next_oid w ∧
                heap w1 = <[l := d1]> (heap w)).
  { subst w1. simpl. by rewrite (lookup_total_correct _ _ _ E). }
  destruct Hw1 as (Hc1 & Hq1 & Ha1 & Hl1 & Hwl1 & Ht1 & Ho1 & Hh1).
  assert (Hstored : ∃ id,
            (d !! "_id" = Some id ∨ d !! "_id" = None ∧ id = VOid (next_oid w)) ∧
            r = mkInsertOneResult (write_ack (collection w)) id ∧
            reachable (collection w) = true ∧
            id_taken id (docs (collection w)) = false ∧
            collection w2 = set_docs (docs (collection w) ++ [<["_id" := id]> d1]) (collection w) ∧
            heap w2 = <[l := <["_id" := id]> d1]> (heap w) ∧
            requests w2 = requests w ++ [ReqInsertOne (<["_id" := id]> d1)] ∧
            audits w2 = audits w ∧ logged w2 = logged w ∧
            wall w2 = wall w ∧ ticks w2 = S (ticks w)).
  { revert Hi. unfold insert_one. rewrite run_bind, (run_getdict _ _ _ E1).
    destruct (d1 !! "_id") as [v|] eqn:Eid.
    - unfold bind, ret, raise, gets, modify, send, getdict. simpl.
      rewrite (lookup_total_correct _ _ _ E1), Hc1.
      destruct (reachable (collection w)) eqn:Er; simpl; [|done].
      destruct (id_taken v (docs (collection w))) eqn:Et; simpl; [done|].
      intros [= <- <-]. exists v. simpl.
      rewrite (insert_id d1 "_id" v Eid).
      split. { left. subst d1. by rewrite lookup_insert_ne in Eid. }
      rewrite ?Hc1, ?Hq1, ?Ha1, ?Hl1, ?Hwl1, ?Ht1, ?Hh1, ?insert_insert_eq.
      repeat split; done.
    - unfold bind, ret, raise, gets, modify, send, getdict, setitem, fresh_oid. simpl.
      rewrite !lookup_total_insert_eq, (lookup_total_correct _ _ _ E1), Hc1, Ho1.
      destruct (reachable (collection w)) eqn:Er; simpl; [|done].
      destruct (id_taken _ (docs (collection w))) eqn:Et; simpl; [done|].
      intros [= <- <-]. exists (VOid (next_oid w)). simpl.
      split. { right. subst d1. by rewrite lookup_insert_ne in Eid. }
      rewrite ?Hc1, ?Hq1, ?Ha1, ?Hl1, ?Hwl1, ?Ht1, ?Hh1, ?insert_insert_eq.
      repeat split; done. }
  destruct Hstored as (id & Hid & -> & Hr & Ht & Hc & Hh & Hq & Ha & Hl & Hw & Hti).
  apply bind_return_inv in Hbody as ([] & w3 & Haud & [= <- <-]).
  match type of Haud with
  | AnimalShelter._audit ?a ?dt ?ww = _ =>
      destruct (run_audit a dt ww) as (w4 & Haud' & Hh3 & Hc3 & Hw3 & Ht3 & Ho3 & Hq3 & Hif)
  end.
  assert (w4 = w3) as -> by (rewrite Haud in Haud'; congruence).
  exists (<["_id" := id]> d1), id. cbv zeta.
  split; [done|]. split; [done|]. split; [done|]. split; [done|].
  split; [by rewrite Hc3|]. split; [by rewrite Hh3|]. split; [done|].
  rewrite Hw, Hti in *. split.
  { rewrite Hq3, Hq. by rewrite <- app_assoc. }
  rewrite Ha in Hif.
  destruct (audit_reachable (audits w)); destruct Hif as [He Hlg];
    rewrite He, Hlg, ?Ha, Hl; done.
Qed.


Lemma filter_matches_gone q (ds : list Doc) :
  filter (λ d, matches q d) (filter (λ d, ¬ matches q d) ds) = [].
Proof.
  induction ds as [|d ds IH]; [done|].
  destruct (matches q d) eqn:Em.
  - rewrite (filter_cons_False (λ d, ¬ matches q d)); [done|].
    rewrite Em. simpl. tauto.
  - rewrite (filter_cons_True (λ d, ¬ matches q d)).
    + rewrite filter_cons_False; [done|]. rewrite Em. simpl. tauto.
    + rewrite Em. simpl. tauto.
Qed.

(** X5: after a [delete] that returned, a [read] with the same filter
    returns the empty list, whatever its projection, limit and sort. *)
Theorem delete_then_read_finds_nothing w l q actor confirm projection n sf so rs w' :
  heap w !! l = Some q →
  (AnimalShelter.delete (PyDict l) actor confirm >>
   AnimalShelter.read (PyDict l) projection n sf so) w = (Return rs, w') →
  rs = [].
Proof.
  intros E (out & w1 & Hd & Hread)%bind_return_inv.
  destruct (delete_effect _ _ _ _ _ _ _ E Hd) as (_ & _ & _ & Hc & _ & Hh & _).
  destruct (read_returns _ _ _ _ _ _ _ _ Hread) as (q' & sorted & Hq' & _ & Ho & ->).
  simpl in Hq'. rewrite Hh, (lookup_total_correct _ _ _ E) in Hq'. injection Hq' as <-.
  apply ordered_Permutation in Ho. rewrite Hc in Ho. simpl in Ho.
  rewrite filter_matches_gone in Ho. apply Permutation_nil_r in Ho as ->.
  unfold limited. case_bool_decide; rewrite ?take_nil; by destruct (projection_of _ _).
Qed.


(** a successful [update_many], read backwards, with its result *)
Lemma update_many_effect q nv upsert w r w' :
  update_many q nv upsert w = (Return r, w') →
  let hit := filter (λ d, matches q d) (docs (collection w)) in
  reachable (collection w) = true ∧
  heap w' = heap w ∧ audits w' = audits w ∧ logged w' = logged w ∧
  wall w' = wall w ∧ ticks w' = ticks w ∧
  requests w' = requests w ++ [ReqUpdateMany q nv upsert] ∧
  ((hit = [] ∧ upsert = true ∧
    set_error nv (upsert_seed q) = None ∧
    ∃ id,
      r = mkUpdateResult (write_ack (collection w)) 0 0 (Some id) ∧
      id_taken id (docs (collection w)) = false ∧
      (apply_set nv (upsert_seed q) !! "_id" = Some id ∨
       apply_set nv (upsert_seed q) !! "_id" = None ∧ id = VOid (next_oid w)) ∧
      collection w' =
        set_docs (docs (collection w) ++ [<["_id" := id]> (apply_set nv (upsert_seed q))])
          (collection w)) ∨
   ((hit ≠ [] ∨ upsert = false) ∧
    r = mkUpdateResult (write_ack (collection w)) (length hit)
          (length (filter (λ d, apply_set nv d ≠ d) hit)) None ∧
    collection w' =
      set_docs ((λ d, if matches q d then apply_set nv d else d) <$> docs (collection w))
        (collection w))).
Proof.
  unfold update_many, bind, ret, raise, gets, modify, send, fresh_oid. simpl.
  destruct (reachable (collection w)) eqn:Er; simpl; [|done].
  destruct (set_refused nv) eqn:Erf; [done|].
  destruct (filter (λ d, matches q d) (docs (collection w))) as [|h hit] eqn:Eh.
  - destruct upsert.
    + destruct (set_error nv (upsert_seed q)) eqn:Ese; [done|].
      destruct (apply_set nv (upsert_seed q) !! "_id") as [v|] eqn:Eid; simpl.
      * destruct (id_taken v _) eqn:Et; [done|]. intros [= <- <-]. simpl.
        repeat split; try done. left. repeat split; try done.
        exists v. repeat split; auto.
      * destruct (id_taken _ _) eqn:Et; [done|]. intros [= <- <-]. simpl.
        repeat split; try done. left. repeat split; try done.
        exists (VOid (next_oid w)). repeat split; auto.
    + destruct ((set_matching q nv (docs (collection w))).2) eqn:Es; [done|].
      apply set_matching_accepted in Es as [Hds _].
      intros [= <- <-]. simpl. rewrite Hds. repeat split; try done. right. auto.
  - destruct ((set_matching q nv (docs (collection w))).2) eqn:Es; [done|].
    apply set_matching_accepted in Es as [Hds _].
    intros [= <- <-]. simpl. rewrite Hds. repeat split; try done. right. auto.
Qed.

(** what an [update] that returns has done, in full *)
Lemma update_effect w lq lnv q nv upsert actor out w' :
  heap w !! lq = Some q →
  heap w !! lnv = Some nv →
  AnimalShelter.update (PyDict lq) (PyDict lnv) upsert actor w = (Return out, w') →
  let now := wall w (ticks w) in
  let nv' := <["last_modified_timestamp" := VTime now]> nv in
  let q' := if decide (lq = lnv) then nv' else q in
  let hit := filter (λ d, matches q' d) (docs (collection w)) in
  ∃ matched modified up,
    let entry := mkAuditEntry "UPDATE"
                   {[ "actor" := AnimalShelter.opt_str actor;
                      "matched" := VInt (Z.of_nat matched);
                      "modified" := VInt (Z.of_nat modified) ]} (wall w (S (ticks w))) in
    q ≠ ∅ ∧ nv ≠ ∅ ∧
    reachable (collection w) = true ∧
    write_ack (collection w) = true ∧
    heap w' = <[lnv := nv']> (heap w) ∧
    out = {[ "ok" := VBool true;
             "matched" := VInt (Z.of_nat matched);
             "modified" := VInt (Z.of_nat modified);
             "upserted_id" := up ]} ∧
    requests w' = requests w ++ [ReqUpdateMany q' nv' upsert; ReqAuditInsert entry] ∧
    (if audit_reachable (audits w)
     then entries (audits w') = entries (audits w) ++ [entry] ∧ logged w' = logged w
     else audits w' = audits w ∧
          logged w' = logged w ++
            [(WARNING, "audit_failed action=UPDATE error=" +:+ str_exn server_down)]) ∧
    ((hit = [] ∧ upsert = true ∧ set_error nv' (upsert_seed q') = None ∧
      matched = 0 ∧ modified = 0 ∧
      ∃ id,
        up = (if py_truthy id then VStr (py_str id) else VNone) ∧
        id_taken id (docs (collection w)) = false ∧
        (apply_set nv' (upsert_seed q') !! "_id" = Some id ∨
         apply_set nv' (upsert_seed q') !! "_id" = None ∧ id = VOid (next_oid w)) ∧
        docs (collection w') =
          docs (collection w) ++ [<["_id" := id]> (apply_set nv' (upsert_seed q'))]) ∨
     ((hit ≠ [] ∨ upsert = false) ∧
      matched = length hit ∧
      modified = length (filter (λ d, apply_set nv' d ≠ d) hit) ∧
      up = VNone ∧
      docs (collection w') =
        (λ d, if matches q' d then apply_set nv' d else d) <$> docs (collection w))).
Proof.
  intros Eq Env [(a & [= <-] & Hbody)|(? & ? & ? & _)]%logged_as_inv; [|done].
  apply bind_return_inv in Hbody as (l1 & w1 & Hr & Hbody).
  rewrite (run_require_dict _ _ _ _ _ Eq) in Hr. cbn [negb andb] in Hr.
  destruct (dict_truthy q) eqn:Edq; [|done]. injection Hr as <- <-.
  apply bind_return_inv in Hbody as (l2 & w1 & Hr & Hbody).
  rewrite (run_require_dict _ _ _ _ _ Env) in Hr. cbn [negb andb] in Hr.
  destruct (dict_truthy nv) eqn:Ednv; [|done]. injection Hr as <- <-.
  apply bind_return_inv in Hbody as (now & w1 & [= <- <-] & Hbody).
  apply bind_return_inv in Hbody as ([] & w1 & Hs & Hbody).
  injection Hs as Hs.
  set (now := wall w (ticks w)) in *.
  set (nv' := <["last_modified_timestamp" := VTime now]> nv).
  assert (Hw1 : collection w1 = collection w ∧ requests w1 = requests w ∧
                audits w1 = audits w ∧ logged w1 = logged w ∧ wall w1 = wall w ∧
                ticks w1 = S (ticks w) ∧ next_oid w1 = next_oid w ∧
                heap w1 = <[lnv := nv']> (heap w)).
  { subst w1. simpl. by rewrite (lookup_total_correct _ _ _ Env). }
  destruct Hw1 as (Hc1 & Hq1 & Ha1 & Hl1 & Hwl1 & Ht1 & Ho1 & Hh1). clear Hs.
  assert (E1nv : heap w1 !! lnv = Some nv') by (by rewrite Hh1, lookup_insert_eq).
  assert (E1q : heap w1 !! lq = Some (if decide (lq = lnv) then nv' else q)).
  { rewrite Hh1. case_decide as Hl; [subst lq; by rewrite lookup_insert_eq|].
    by rewrite lookup_insert_ne. }
  set (q' := if decide (lq = lnv) then nv' else q) in *.
  apply bind_return_inv in Hbody as (qd & w2 & Hg & Hbody).
  rewrite (run_getdict _ _ _ E1q) in Hg. injection Hg as <- <-.
  apply bind_return_inv in Hbody as (nvd & w2 & Hg & Hbody).
  rewrite (run_getdict _ _ _ E1nv) in Hg. injection Hg as <- <-.
  apply bind_return_inv in Hbody as (r & w2 & Hu & Hbody).
  apply update_many_effect in Hu as (Hr & Hh & Ha & Hl & Hw & Hti & Hq & Hcases).
  rewrite Hc1, Ho1 in Hcases.
  apply bind_return_inv in Hbody as (matched & w3 & Hm & Hbody).
  unfold matched_count in Hm.
  destruct (u_acknowledged r) eqn:Eack; [|done]. injection Hm as <- <-.
  apply bind_return_inv in Hbody as (modified & w3 & Hm & Hbody).
  unfold modified_count in Hm. rewrite Eack in Hm. injection Hm as <- <-.
  apply bind_return_inv in Hbody as (up & w3 & Hm & Hbody).
  unfold upserted_id in Hm. rewrite Eack in Hm. injection Hm as <- <-.
  apply bind_return_inv in Hbody as ([] & w3 & Haud & [= <- <-]).
  match type of Haud with
  | AnimalShelter._audit ?a ?dt ?ww = _ =>
      destruct (run_audit a dt ww) as (w4 & Haud' & Hh3 & Hc3 & Hw3 & Ht3 & Ho3 & Hq3 & Hif)
  end.
  assert (w4 = w3) as -> by (rewrite Haud in Haud'; congruence).
  exists (u_matched r), (u_modified r),
    (match u_upserted r with
     | Some id => if py_truthy id then VStr (py_str id) else VNone
     | None => VNone
     end).
  cbv zeta.
  assert (Hack : write_ack (collection w) = true).
  { destruct Hcases as [(_ & _ & _ & id & -> & _)|(_ & -> & _)]; simpl in Eack; congruence. }
  split; [by apply dict_truthy_true|]. split; [by apply dict_truthy_true|].
  split; [congruence|]. split; [done|].
  split; [by rewrite Hh3, Hh|]. split; [done|].
  split. { rewrite Hq3, Hq, Hq1, Hw, Hti, Hwl1, Ht1. by rewrite <- app_assoc. }
  split.
  { rewrite Ha, Ha1, Hw, Hti, Hl, Hl1, Hwl1, Ht1 in Hif.
    destruct (audit_reachable (audits w)); destruct Hif as [He Hlg];
      rewrite He, Hlg, ?Ha, ?Ha1; done. }
  destruct Hcases as [(Hhit & Hup & Hse & id & -> & Ht & Hid & Hcol)|(Hhit & -> & Hcol)].
  - left. simpl. repeat split; try done. exists id. repeat split; try done.
    by rewrite Hc3, Hcol.
  - right. simpl. repeat split; try done. by rewrite Hc3, Hcol.
Qed.

End Effects.

(** ** What a call leaves alone *)

Global Instance only_asked_preorder : PreOrder only_asked.
Proof.
  split.
  - intros w. repeat split; try done. exists []. by rewrite app_nil_r.
  - intros w1 w2 w3 (H1 & H2 & H3 & H4 & H5 & H6 & H7 & s1 & H8 & F1)
      (G1 & G2 & G3 & G4 & G5 & G6 & G7 & s2 & G8 & F2).
    repeat split; try congruence.
    exists (s1 ++ s2). split; [by rewrite G8, H8, app_assoc|by apply Forall_app].
Qed.

Global Instance same_audits_preorder : PreOrder same_audits.
Proof. split; [done|]. intros w1 w2 w3. unfold same_audits. congruence. Qed.

Section Maintains.
Context (R : relation World) `{!PreOrder R}.

Lemma keep_ret {A} (a : A) : maintains R (ret a).
Proof. by intros w r w' [= _ <-]. Qed.

Lemma keep_raise {A} e : maintains R (raise (A := A) e).
Proof. by intros w r w' [= _ <-]. Qed.

Lemma keep_gets {A} (f : World → A) : maintains R (gets f).
Proof. by intros w r w' [= _ <-]. Qed.

Lemma keep_modify f : (∀ w, R w (f w)) → maintains R (modify f).
Proof. intros Hf w r w' [= _ <-]. apply Hf. Qed.

Lemma keep_bind {A B} (m : Py A) (k : A → Py B) :
  maintains R m → (∀ a, maintains R (k a)) → maintains R (bind m k).
Proof.
  intros Hm Hk w r w'. unfold bind.
  destruct (m w) as [[a|e] w1] eqn:E.
  - intros Hr. etrans; [by eapply Hm|by eapply Hk].
  - intros [= _ <-]. by eapply Hm.
Qed.

Lemma keep_try_except {A} (m : Py A) (h : Exn → Py A) :
  maintains R m → (∀ e, maintains R (h e)) → maintains R (try_except m h).
Proof.
  intros Hm Hh w r w'. unfold try_except.
  destruct (m w) as [[a|e] w1] eqn:E.
  - intros [= _ <-]. by eapply Hm.
  - intros Hr. etrans; [by eapply Hm|by eapply Hh].
Qed.
End Maintains.

(** one step through a computation; [side] proves that a primitive write
    respects the relation, [other] handles the calls that are not
    primitive *)
Ltac keep_step side other :=
  cbv beta zeta;
  lazymatch goal with
  | |- maintains _ (bind _ _) => apply keep_bind; [apply _| |intros ?]
  | |- maintains _ (try_except _ _) => apply keep_try_except; [apply _| |intros ?]
  | |- maintains _ (ret _) => apply keep_ret; apply _
  | |- maintains _ (raise _) => apply keep_raise; apply _
  | |- maintains _ (gets _) => apply keep_gets; apply _
  | |- maintains _ (getdict _) => apply keep_gets; apply _
  | |- maintains _ (modify _) => apply keep_modify; intros ?; side
  | |- maintains _ (log _ _) => apply keep_modify; intros ?; side
  | |- maintains _ (send _) => apply keep_modify; intros ?; side
  | |- maintains _ (setitem _ _ _) => apply keep_modify; intros ?; side
  | |- maintains _ (print _) => apply keep_modify; intros ?; side
  | |- maintains _ (if ?b then _ else _) => destruct b
  | |- maintains _ (match ?x with _ => _ end) => destruct x
  | |- _ => other
  end.

Ltac asked_side :=
  repeat split; try done;
  first [ by (exists []; rewrite app_nil_r)
        | by (eexists [_]; split; [reflexivity|by repeat constructor]) ].

Section Frames.
Context `{C : Collaborator}.
Import Mongo.

Lemma asked_list_cursor cur : maintains only_asked (list_cursor cur).
Proof.
  unfold list_cursor. repeat keep_step asked_side fail.
Qed.

Lemma asked_estimated_document_count : maintains only_asked estimated_document_count.
Proof. unfold estimated_document_count. repeat keep_step asked_side fail. Qed.

(** X12: [read] and [stats] never write, whether they return or raise: the
    caller's dicts, both collections, the clock and the id generator are as
    before, nothing is printed, and every request they sent is a query
    ([find] or a count). *)
Theorem read_and_stats_only_ask w :
  (∀ query projection n sf so r w',
     AnimalShelter.read query projection n sf so w = (r, w') → only_asked w w') ∧
  (∀ r w', AnimalShelter.stats w = (r, w') → only_asked w w').
Proof.
  split.
  - intros query projection n sf so. revert w.
    change (maintains only_asked (AnimalShelter.read query projection n sf so)).
    unfold AnimalShelter.read, AnimalShelter.logged_as, AnimalShelter._require_dict.
    repeat keep_step asked_side ltac:(apply asked_list_cursor).
  - revert w. change (maintains only_asked AnimalShelter.stats).
    unfold AnimalShelter.stats, AnimalShelter.logged_db_as.
    repeat keep_step asked_side
      ltac:(first [apply asked_list_cursor | apply asked_estimated_document_count]).
Qed.

Lemma quiet_bind {A B} (m : Py A) (k : A → Py B) :
  maintains same_audits m → (∀ a, quiet_on_raise (k a)) → quiet_on_raise (bind m k).
Proof.
  intros Hm Hk w e w' [Hr|(a & w1 & Hr & Hk')]%bind_raise_inv.
  - by eapply Hm.
  - rewrite (Hk _ _ _ _ Hk'). by eapply Hm.
Qed.

Lemma quiet_never {A} (m : Py A) : raises_only (λ _, False) m → quiet_on_raise m.
Proof. intros Hm w e w' Hr. by destruct (Hm _ _ _ Hr). Qed.

Lemma quiet_audit_ret {A} action details (out : A) :
  quiet_on_raise (AnimalShelter._audit action details >> ret out).
Proof.
  apply quiet_never, only_bind; [apply only_audit|intros; apply only_ret].
Qed.

Ltac audits_side := by red.

Lemma same_audits_insert_one l : maintains same_audits (insert_one l).
Proof. unfold insert_one, fresh_oid. repeat keep_step audits_side fail.
  all: by intros w r w' [= _ <-]. Qed.

Lemma same_audits_update_many q nv upsert : maintains same_audits (update_many q nv upsert).
Proof. unfold update_many, fresh_oid. repeat keep_step audits_side fail.
  all: by intros w r w' [= _ <-]. Qed.

Lemma same_audits_delete_many q : maintains same_audits (delete_many q).
Proof. unfold delete_many. repeat keep_step audits_side fail. Qed.

Lemma same_audits_utcnow : maintains same_audits AnimalShelter._utcnow.
Proof. by intros w r w' [= _ <-]. Qed.

Ltac audits_call :=
  first [ apply same_audits_insert_one | apply same_audits_update_many | apply same_audits_delete_many
        | apply same_audits_utcnow ].

Ltac quiet_step :=
  cbv beta zeta;
  lazymatch goal with
  | |- quiet_on_raise (AnimalShelter._audit _ _ >> ret _) => apply quiet_audit_ret
  | |- quiet_on_raise (bind _ _) => apply quiet_bind; [|intros ?]
  | |- maintains same_audits _ => repeat keep_step audits_side audits_call
  end.

Lemma quiet_create data actor : quiet_on_raise (AnimalShelter.create data actor).
Proof.
  intros w e w' [(a & ? & _)|(e' & w1 & [= <-] & Hbody & ->)]%logged_as_inv; [done|].
  transitivity (audits w1); [by destruct e|].
  revert Hbody. generalize w e w1.
  match goal with |- ∀ w e w1, ?m w = _ → _ => change (quiet_on_raise m) end.
  unfold AnimalShelter._require_dict, AnimalShelter._validate_required_fields.
  repeat quiet_step.
Qed.

Lemma quiet_update query new_values upsert actor :
  quiet_on_raise (AnimalShelter.update query new_values upsert actor).
Proof.
  intros w e w' [(a & ? & _)|(e' & w1 & [= <-] & Hbody & ->)]%logged_as_inv; [done|].
  transitivity (audits w1); [by destruct e|].
  revert Hbody. generalize w e w1.
  match goal with |- ∀ w e w1, ?m w = _ → _ => change (quiet_on_raise m) end.
  unfold AnimalShelter._require_dict, matched_count, modified_count, upserted_id.
  repeat quiet_step.
Qed.

Lemma quiet_delete query actor confirm :
  quiet_on_raise (AnimalShelter.delete query actor confirm).
Proof.
  intros w e w' [(a & ? & _)|(e' & w1 & [= <-] & Hbody & ->)]%logged_as_inv; [done|].
  transitivity (audits w1); [by destruct e|].
  revert Hbody. generalize w e w1.
  match goal with |- ∀ w e w1, ?m w = _ → _ => change (quiet_on_raise m) end.
  unfold AnimalShelter._require_dict, deleted_count.
  repeat quiet_step.
Qed.

(** X15: with the audit collection reachable, every [create], [update] and
    [delete] that returns has appended exactly one audit entry: the action,
    the actor with the identifier or counts the call reported, and the clock
    reading taken for the entry.  A call that raises leaves the audit
    collection as it was. *)
Theorem audit_trail_records_each_success w :
  audit_reachable (audits w) = true →
  (∀ l d actor out w',
     heap w !! l = Some d →
     AnimalShelter.create (PyDict l) actor w = (Return out, w') →
     entries (audits w') = entries (audits w) ++
       [mkAuditEntry "CREATE"
          {[ "actor" := AnimalShelter.opt_str actor;
             "inserted_id" := out !!! "inserted_id" ]} (wall w (S (ticks w)))]) ∧
  (∀ lq lnv q nv upsert actor out w',
     heap w !! lq = Some q →
     heap w !! lnv = Some nv →
     AnimalShelter.update (PyDict lq) (PyDict lnv) upsert actor w = (Return out, w') →
     entries (audits w') = entries (audits w) ++
       [mkAuditEntry "UPDATE"
          {[ "actor" := AnimalShelter.opt_str actor;
             "matched" := out !!! "matched";
             "modified" := out !!! "modified" ]} (wall w (S (ticks w)))]) ∧
  (∀ l q actor confirm out w',
     heap w !! l = Some q →
     AnimalShelter.delete (PyDict l) actor confirm w = (Return out, w') →
     entries (audits w') = entries (audits w) ++
       [mkAuditEntry "DELETE"
          {[ "actor" := AnimalShelter.opt_str actor;
             "deleted" := out !!! "deleted" ]} (wall w (ticks w))]) ∧
  (∀ e w',
     (∀ data actor, AnimalShelter.create data actor w = (Raise e, w') →
                    audits w' = audits w) ∧
     (∀ query new_values upsert actor,
        AnimalShelter.update query new_values upsert actor w = (Raise e, w') →
        audits w' = audits w) ∧
     (∀ query actor confirm,
        AnimalShelter.delete query actor confirm w = (Raise e, w') →
        audits w' = audits w)).
Proof.
  intros Ha. split; [|split; [|split]].
  - intros l d actor out w' E Hc.
    destruct (create_effect _ _ _ _ _ _ E Hc) as (stored & id & _ & _ & _ & _ & _ & _ & -> & _ & Hif).
    rewrite Ha in Hif. by destruct Hif as [-> _].
  - intros lq lnv q nv upsert actor out w' Eq Env Hu.
    destruct (update_effect _ _ _ _ _ _ _ _ _ Eq Env Hu)
      as (matched & modified & up & _ & _ & _ & _ & _ & -> & _ & Hif & _).
    rewrite Ha in Hif. by destruct Hif as [-> _].
  - intros l q actor confirm out w' E Hd.
    destruct (delete_effect _ _ _ _ _ _ _ E Hd) as (_ & _ & _ & _ & -> & _ & _ & Hif).
    rewrite Ha in Hif. by destruct Hif as [-> _].
  - intros e w'. split; [|split].
    + intros data actor Hr. by eapply quiet_create.
    + intros query new_values upsert actor Hr. by eapply quiet_update.
    + intros query actor confirm Hr. by eapply quiet_delete.
Qed.

End Frames.

(** ** Counts, upserts, and writes that fail *)

Section Counts.
Context `{C : Collaborator}.
Import Mongo.

Lemma filter_matches_none q (ds : list Doc) :
  (∀ d, d ∈ ds → matches q d = false) → filter (λ d, matches q d) ds = [].
Proof.
  induction ds as [|d ds IH]; [done|]. intros Hno.
  rewrite filter_cons_False.
  - apply IH. intros d' Hd'. apply Hno. by right.
  - rewrite (Hno d) by left. simpl. tauto.
Qed.

(** X7: an [update] that returns and does not insert (no upsert, or some
    record satisfies the filter) reports as [matched] the number of stored
    records that satisfy the filter, as [modified] the number of those the
    new values change, and no [upserted_id]; [modified] is at most
    [matched] and the collection has as many records as before. *)
Theorem update_reports_counts w lq lnv q nv upsert actor out w' :
  heap w !! lq = Some q →
  heap w !! lnv = Some nv →
  AnimalShelter.update (PyDict lq) (PyDict lnv) upsert actor w = (Return out, w') →
  let nv' := <["last_modified_timestamp" := VTime (wall w (ticks w))]> nv in
  let q' := if decide (lq = lnv) then nv' else q in
  let hit := filter (λ d, matches q' d) (docs (collection w)) in
  upsert = false ∨ hit ≠ [] →
  out = {[ "ok" := VBool true;
           "matched" := VInt (Z.of_nat (length hit));
           "modified" := VInt (Z.of_nat (length (filter (λ d, apply_set nv' d ≠ d) hit)));
           "upserted_id" := VNone ]} ∧
  length (filter (λ d, apply_set nv' d ≠ d) hit) ≤ length hit ∧
  length (docs (collection w')) = length (docs (collection w)).
Proof.
  intros Eq Env Hu nv' q' hit Hcase.
  destruct (update_effect _ _ _ _ _ _ _ _ _ Eq Env Hu)
    as (matched & modified & up & _ & _ & _ & _ & _ & -> & _ & _ & Hcases).
  fold nv' q' hit in Hcases.
  destruct Hcases as [(Hhit & Hup & _)|(_ & -> & -> & -> & Hdocs)].
  { destruct Hcase; congruence. }
  split; [done|]. split; [apply length_filter|]. by rewrite Hdocs, length_fmap.
Qed.

(** X8: an [update] with [upsert=True] that returns when no stored record
    satisfies the filter appends exactly one record: the collaborator's seed
    for the filter with the new values set on it, under an [_id] no stored
    record had.  It carries [last_modified_timestamp]; every key of the new
    values that is a field name has its value, and every top-level field
    that no key addresses is as in the seed.  The call reports zero
    matched, zero modified and the new [_id] as a string. *)
Theorem update_upsert_inserts_one w lq lnv q nv actor out w' :
  heap w !! lq = Some q →
  heap w !! lnv = Some nv →
  AnimalShelter.update (PyDict lq) (PyDict lnv) true actor w = (Return out, w') →
  let now := wall w (ticks w) in
  let nv' := <["last_modified_timestamp" := VTime now]> nv in
  let q' := if decide (lq = lnv) then nv' else q in
  (∀ d, d ∈ docs (collection w) → matches q' d = false) →
  ∃ id,
    let new := <["_id" := id]> (apply_set nv' (upsert_seed q')) in
    docs (collection w') = docs (collection w) ++ [new] ∧
    id_taken id (docs (collection w)) = false ∧
    new !! "last_modified_timestamp" = Some (VTime now) ∧
    (∀ k v, k ≠ "_id" → field_root k = k → nv' !! k = Some v → new !! k = Some v) ∧
    (∀ k, k ≠ "_id" → (∀ k', is_Some (nv' !! k') → field_root k' ≠ k) →
          new !! k = upsert_seed q' !! k) ∧
    out = {[ "ok" := VBool true; "matched" := VInt 0; "modified" := VInt 0;
             "upserted_id" := if py_truthy id then VStr (py_str id) else VNone ]}.
Proof.
  intros Eq Env Hu now nv' q' Hnone.
  destruct (update_effect _ _ _ _ _ _ _ _ _ Eq Env Hu)
    as (matched & modified & up & _ & _ & _ & _ & _ & -> & _ & _ & Hcases).
  fold now nv' q' in Hcases.
  assert (Hhit : filter (λ d, matches q' d) (docs (collection w)) = [])
    by (by apply filter_matches_none).
  destruct Hcases as [(_ & _ & Hse & -> & -> & id & -> & Ht & Hid & Hdocs)|([Hne|?] & _)];
    [|done..].
  exists id. cbv zeta. split; [done|]. split; [done|].
  assert (Hnv : ∀ k v, k ≠ "_id" → field_root k = k → nv' !! k = Some v →
                <["_id" := id]> (apply_set nv' (upsert_seed q')) !! k = Some v).
  { intros k v Hk Hr Hv. rewrite lookup_insert_ne by done.
    by apply apply_set_named. }
  split. { apply Hnv; [done|reflexivity|]. subst nv'. by rewrite lookup_insert_eq. }
  split; [done|]. split; [|done].
  intros k Hk Hv. rewrite lookup_insert_ne by done. by apply apply_set_frame.
Qed.

(** X9: [update] and [delete] read the counts off the collaborator's
    result, which the driver refuses for an unacknowledged write.  So a
    result that is returned always has [ok] true; and on a handle with
    unacknowledged writes [delete] removes the matching records and then
    raises, without an audit entry. *)
Theorem unacknowledged_writes_never_return w :
  (∀ lq lnv q nv upsert actor out w',
     heap w !! lq = Some q → heap w !! lnv = Some nv →
     AnimalShelter.update (PyDict lq) (PyDict lnv) upsert actor w = (Return out, w') →
     write_ack (collection w) = true ∧ out !! "ok" = Some (VBool true)) ∧
  (∀ l q actor confirm out w',
     heap w !! l = Some q →
     AnimalShelter.delete (PyDict l) actor confirm w = (Return out, w') →
     write_ack (collection w) = true ∧ out !! "ok" = Some (VBool true)) ∧
  (∀ l q actor confirm,
     heap w !! l = Some q → q ≠ ∅ →
     reachable (collection w) = true →
     write_ack (collection w) = false →
     ∃ w',
       AnimalShelter.delete (PyDict l) actor confirm w
         = (Raise (unacknowledged "deleted_count"), w') ∧
       docs (collection w') = filter (λ d, ¬ matches q d) (docs (collection w)) ∧
       audits w' = audits w).
Proof.
  split; [|split].
  - intros lq lnv q nv upsert actor out w' Eq Env Hu.
    destruct (update_effect _ _ _ _ _ _ _ _ _ Eq Env Hu)
      as (matched & modified & up & _ & _ & _ & Hack & _ & -> & _).
    done.
  - intros l q actor confirm out w' E Hd.
    by destruct (delete_effect _ _ _ _ _ _ _ E Hd) as (_ & _ & Hack & _ & -> & _).
  - intros l q actor confirm E Hq Hr Hack.
    unfold AnimalShelter.delete, AnimalShelter.logged_as, try_except.
    rewrite run_bind, (run_require_dict _ _ _ _ _ E), (dict_truthy_nonempty _ Hq).
    cbn [negb andb]. rewrite run_bind, (run_getdict _ _ _ E).
    rewrite (dict_truthy_nonempty _ Hq). cbn [negb andb].
    rewrite run_bind. unfold ret at 1. rewrite run_bind.
    unfold delete_many at 1, bind at 1, send at 1, modify at 1, bind at 1, gets at 1.
    cbn [collection set_requests]. rewrite Hr. cbn [negb].
    unfold bind at 1, modify at 1, ret at 1.
    rewrite run_bind. unfold deleted_count. cbn [d_acknowledged]. rewrite Hack.
    unfold raise at 1. unfold bind, log, modify, raise. simpl.
    eexists. split; [reflexivity|]. done.
Qed.

(** X10: the stamp is written before the insert is sent.  A [create] of a
    valid record that fails because the server does not answer stores
    nothing and audits nothing, yet the caller's dict has gained
    [created_timestamp] and [_id]; its other fields are as given. *)
Theorem failed_create_still_stamps w l d actor :
  heap w !! l = Some d →
  d ≠ ∅ →
  AnimalShelter.missing_fields d AnimalShelter.required_fields = [] →
  reachable (collection w) = false →
  ∃ w' d',
    AnimalShelter.create (PyDict l) actor w = (Raise server_down, w') ∧
    collection w' = collection w ∧
    audits w' = audits w ∧
    heap w' !! l = Some d' ∧
    d' !! "created_timestamp" = Some (VTime (wall w (ticks w))) ∧
    is_Some (d' !! "_id") ∧
    ∀ k, k ≠ "_id" → k ≠ "created_timestamp" → d' !! k = d !! k.
Proof.
  intros E Hne Hm Hr. unfold AnimalShelter.create, AnimalShelter.logged_as, try_except.
  rewrite run_bind, (run_require_dict _ _ _ _ _ E), (dict_truthy_nonempty _ Hne).
  cbn [negb andb].
  rewrite run_bind. unfold AnimalShelter._validate_required_fields.
  rewrite run_bind, (run_getdict _ _ _ E), Hm.
  unfold ret at 1. rewrite run_bind. unfold AnimalShelter._utcnow at 1.
  rewrite run_bind. unfold setitem at 1, modify at 1.
  rewrite run_bind.
  set (d1 := <["created_timestamp" := VTime (wall w (ticks w))]> d).
  set (w1 := set_heap _ _).
  assert (E1 : heap w1 !! l = Some d1).
  { subst w1. simpl. by rewrite lookup_insert_eq, (lookup_total_correct _ _ _ E). }
  assert (Hd1 : d1 !! "created_timestamp" = Some (VTime (wall w (ticks w))) ∧
                ∀ k, k ≠ "created_timestamp" → d1 !! k = d !! k).
  { subst d1. split; [by rewrite lookup_insert_eq|].
    intros k Hk. by rewrite lookup_insert_ne. }
  destruct Hd1 as [Hts Hrest].
  unfold insert_one. rewrite run_bind, (run_getdict _ _ _ E1).
  destruct (d1 !! "_id") as [v|] eqn:Eid.
  - unfold bind, ret, raise, gets, modify, send, getdict, log. simpl.
    rewrite Hr. simpl. eexists _, d1. split; [reflexivity|]. simpl.
    rewrite (lookup_total_correct _ _ _ E), lookup_insert_eq.
    repeat split; eauto.
  - unfold bind, ret, raise, gets, modify, send, getdict, setitem, fresh_oid, log. simpl.
    rewrite Hr. simpl. eexists _, (<["_id" := VOid (next_oid w)]> d1).
    split; [reflexivity|]. simpl.
    rewrite !lookup_total_insert_eq, (lookup_total_correct _ _ _ E), lookup_insert_eq.
    split; [done|]. split; [done|]. split; [done|].
    split. { by rewrite lookup_insert_ne. }
    split. { rewrite lookup_insert_eq. eauto. }
    intros k H1 H2. rewrite lookup_insert_ne by done. by apply Hrest.
Qed.

End Counts.

(** ** Argument checks, identifiers and the order of sort and limit *)

Section Checks.
Context `{C : Collaborator}.
Import Mongo.

Lemma run_require_non_dict value name allow_empty w :
  (∀ l, value ≠ PyDict l) →
  AnimalShelter._require_dict value name allow_empty w =
    (Raise (ValueError (name +:+ " must be a dict")), w).
Proof. intros Hv. destruct value as [| | | | |l]; try done. by destruct (Hv l). Qed.

Lemma dict_truthy_empty : dict_truthy ∅ = false.
Proof. unfold dict_truthy. by rewrite bool_decide_eq_true_2. Qed.

(** X2: the argument checks and their messages.  [create] refuses a
    non-dict and an empty dict as [data]; [update] checks [query] before
    [new_values] and refuses each when it is not a dict or is empty;
    [delete] refuses a non-dict; [read] refuses a [query] that is neither
    [None] nor a dict.  The error is a [ValueError] that names the
    parameter. *)
Theorem validation_messages w :
  (∀ data actor,
     (∀ l, data ≠ PyDict l) →
     (AnimalShelter.create data actor w).1 = Raise (ValueError "data must be a dict")) ∧
  (∀ l actor,
     heap w !! l = Some ∅ →
     (AnimalShelter.create (PyDict l) actor w).1
       = Raise (ValueError "data must be a non-empty dict")) ∧
  (∀ query new_values upsert actor,
     (∀ l, query ≠ PyDict l) →
     (AnimalShelter.update query new_values upsert actor w).1
       = Raise (ValueError "query must be a dict")) ∧
  (∀ l new_values upsert actor,
     heap w !! l = Some ∅ →
     (AnimalShelter.update (PyDict l) new_values upsert actor w).1
       = Raise (ValueError "query must be a non-empty dict")) ∧
  (∀ l q new_values upsert actor,
     heap w !! l = Some q → q ≠ ∅ →
     (∀ l', new_values ≠ PyDict l') →
     (AnimalShelter.update (PyDict l) new_values upsert actor w).1
       = Raise (ValueError "new_values must be a dict")) ∧
  (∀ l q l' upsert actor,
     heap w !! l = Some q → q ≠ ∅ →
     heap w !! l' = Some ∅ →
     (AnimalShelter.update (PyDict l) (PyDict l') upsert actor w).1
       = Raise (ValueError "new_values must be a non-empty dict")) ∧
  (∀ query actor confirm,
     (∀ l, query ≠ PyDict l) →
     (AnimalShelter.delete query actor confirm w).1
       = Raise (ValueError "query must be a dict")) ∧
  (∀ query projection n sf so,
     query ≠ PyNone → (∀ l, query ≠ PyDict l) →
     (AnimalShelter.read query projection n sf so w).1
       = Raise (ValueError "query must be a dict")).
Proof.
  repeat split.
  - intros data actor Hd. unfold AnimalShelter.create.
    erewrite logged_as_raise;
      [|by rewrite run_bind, (run_require_non_dict _ _ _ _ Hd)]; done.
  - intros l actor E. unfold AnimalShelter.create.
    erewrite logged_as_raise;
      [|by rewrite run_bind, (run_require_dict _ _ _ _ _ E), dict_truthy_empty]; done.
  - intros query new_values upsert actor Hq. unfold AnimalShelter.update.
    erewrite logged_as_raise;
      [|by rewrite run_bind, (run_require_non_dict _ _ _ _ Hq)]; done.
  - intros l new_values upsert actor E. unfold AnimalShelter.update.
    erewrite logged_as_raise;
      [|by rewrite run_bind, (run_require_dict _ _ _ _ _ E), dict_truthy_empty]; done.
  - intros l q new_values upsert actor E Hq Hnv. unfold AnimalShelter.update.
    erewrite logged_as_raise;
      [|rewrite run_bind, (run_require_dict _ _ _ _ _ E), (dict_truthy_nonempty _ Hq);
          cbn [negb andb]; by rewrite run_bind, (run_require_non_dict _ _ _ _ Hnv)]; done.
  - intros l q l' upsert actor E Hq E'. unfold AnimalShelter.update.
    erewrite logged_as_raise;
      [|rewrite run_bind, (run_require_dict _ _ _ _ _ E), (dict_truthy_nonempty _ Hq);
          cbn [negb andb];
          by rewrite run_bind, (run_require_dict _ _ _ _ _ E'), dict_truthy_empty]; done.
  - intros query actor confirm Hq. unfold AnimalShelter.delete.
    erewrite logged_as_raise;
      [|by rewrite run_bind, (run_require_non_dict _ _ _ _ Hq)]; done.
  - intros query projection n sf so Hnone Hq. unfold AnimalShelter.read.
    erewrite logged_as_raise; [|rewrite run_bind;
      destruct query as [| | | | |l]; try done;
      try (by rewrite run_bind, (run_require_non_dict _ _ _ _ Hq)); by destruct (Hq l)].
    done.
Qed.



Global Instance key_asc_total f : Total (key_asc f).
Proof.
  intros d1 d2. unfold key_asc.
  destruct (key_le_total (d1 !! f) (d2 !! f)) as [E|E]; rewrite E; auto.
Qed.

Global Instance key_asc_trans f : Transitive (key_asc f).
Proof.
  intros d1 d2 d3. unfold key_asc. intros H1%Is_true_true H2%Is_true_true.
  apply Is_true_true. by eapply key_le_trans.
Qed.

Lemma limited_prefix n (ds : list Doc) : ∃ rest, ds = limited n ds ++ rest ∧
  ((n ≤ 0)%Z → rest = []) ∧
  ((0 < n)%Z → length (limited n ds) = min (Z.to_nat n) (length ds)).
Proof.
  unfold limited. case_bool_decide.
  - exists (drop (Z.to_nat n) ds). split; [by rewrite take_drop|].
    split; [lia|]. intros _. apply length_take.
  - exists []. split; [by rewrite app_nil_r|]. split; [done|lia].
Qed.

(** X13: sort comes before limit.  A [read] with a sort field that returns
    has a sort order of 1 or -1, and what it returns is the front of the
    matching records put in that order (ascending for 1, descending for
    -1): all of them for a limit below one, the first [min n (number of
    matching records)] for a limit [n > 0]. *)
Theorem read_sorts_then_limits w query projection n f so rs w' :
  f ≠ "" →
  AnimalShelter.read query projection n (Some f) so w = (Return rs, w') →
  ∃ q hit rest,
    filter_of w query = Some q ∧
    rs = projected (projection_of w projection) hit ∧
    (so = 1%Z ∨ so = (-1)%Z) ∧
    hit ++ rest ≡ₚ filter (λ d, matches q d) (docs (collection w)) ∧
    StronglySorted (if decide (so = 1%Z) then key_asc f else key_desc f) (hit ++ rest) ∧
    ((n ≤ 0)%Z → rest = []) ∧
    ((0 < n)%Z →
       length rs = min (Z.to_nat n)
                     (length (filter (λ d, matches q d) (docs (collection w))))).
Proof.
  intros Hf Hread.
  destruct (read_returns _ _ _ _ _ _ _ _ Hread) as (q & sorted & Hq & Hr & Ho & ->).
  assert (Hs : sort_of (Some f) so = Some (f, so)).
  { unfold sort_of. destruct (String.eqb_spec f ""); done. }
  rewrite Hs in Ho. unfold ordered in Ho.
  destruct (limited_prefix n sorted) as (rest & Hsplit & Hrest & Hlen).
  exists q, (limited n sorted), rest. split; [done|]. split; [done|].
  assert (Hcases : (so = 1%Z ∨ so = (-1)%Z) ∧
            sorted ≡ₚ filter (λ d, matches q d) (docs (collection w)) ∧
            StronglySorted (if decide (so = 1%Z) then key_asc f else key_desc f) sorted).
  { case_bool_decide as H1.
    - injection Ho as <-. split; [by left|]. split; [apply merge_sort_Permutation|].
      rewrite decide_True by done. apply StronglySorted_merge_sort; apply _.
    - case_bool_decide as H2; [|done].
      injection Ho as <-. split; [by right|]. split; [apply merge_sort_Permutation|].
      rewrite decide_False by done. apply StronglySorted_merge_sort; apply _. }
  destruct Hcases as (Hso & Hp & Hss).
  split; [done|]. rewrite <- Hsplit. split; [done|]. split; [done|]. split; [done|].
  intros Hn. rewrite projected_length, (Hlen Hn). by rewrite Hp.
Qed.

(** X14: a limit below one is no limit and an empty sort field is no sort.
    With both, a [read] that returns gives every stored record that
    satisfies the filter, in storage order (each under the projection, if a
    dict was given). *)
Theorem read_unsorted_unlimited w query projection n sf so rs w' :
  (n ≤ 0)%Z →
  sf = None ∨ sf = Some "" →
  AnimalShelter.read query projection n sf so w = (Return rs, w') →
  ∃ q, filter_of w query = Some q ∧
    rs = projected (projection_of w projection)
           (filter (λ d, matches q d) (docs (collection w))).
Proof.
  intros Hn Hsf Hread.
  destruct (read_returns _ _ _ _ _ _ _ _ Hread) as (q & sorted & Hq & _ & Ho & ->).
  exists q. split; [done|].
  assert (sort_of sf so = None) as Hs by (by destruct Hsf as [-> | ->]).
  rewrite Hs in Ho. injection Ho as <-. by rewrite limited_nonpositive.
Qed.

End Checks.

(** ** The constructor, the indexes and [close] *)

Section LifecycleProperties.
Import Lifecycle.
Context (D : Driver).

(** X17: [_ensure_indexes] asks for the three indexes in order and stops
    at the first that fails: the later ones are not asked for, one WARNING
    [index_creation_failed: <error>] is logged, and the method returns.
    When none fails all three are asked for and nothing is logged. *)
Theorem ensure_indexes_stops_at_first_failure self s :
  (Forall (λ f, index_error D f = None) index_fields →
   _ensure_indexes D self s =
     (Return tt,
      mkSession (s_logged s) (s_printed s)
        (s_calls s ++ (CallCreateIndex (self_collection self) <$> index_fields)))) ∧
  (∀ pre f post e,
     index_fields = pre ++ f :: post →
     Forall (λ f, index_error D f = None) pre →
     index_error D f = Some e →
     _ensure_indexes D self s =
       (Return tt,
        mkSession (s_logged s ++ [(WARNING, "index_creation_failed: " +:+ str_exn e)])
          (s_printed s)
          (s_calls s ++ (CallCreateIndex (self_collection self) <$> (pre ++ [f]))))).
Proof.
  unfold index_fields. split.
  - intros (H1 & (H2 & (H3 & _)%Forall_cons)%Forall_cons)%Forall_cons.
    unfold _ensure_indexes, attempt, and_then, create_index, call.
    rewrite H1, H2, H3. simpl. by rewrite <- !app_assoc.
  - intros pre f post e Hsplit Hpre Hf.
    unfold _ensure_indexes, attempt, and_then, create_index, call, emit.
    destruct pre as [|a [|b [|c pre]]]; simplify_eq/=.
    + rewrite Hf. simpl. done.
    + apply Forall_cons in Hpre as [H1 _]. rewrite H1, Hf. simpl.
      by rewrite <- !app_assoc.
    + apply Forall_cons in Hpre as [H1 [H2 _]%Forall_cons]. rewrite H1, H2, Hf. simpl.
      by rewrite <- !app_assoc.
    + by destruct pre.
Qed.

(** [_ensure_indexes] always returns, and touches only the log and the call
    trace *)
Lemma ensure_indexes_returns self s :
  ∃ s', _ensure_indexes D self s = (Return tt, s') ∧ s_printed s' = s_printed s.
Proof.
  unfold _ensure_indexes, attempt, and_then, create_index, call, emit.
  destruct (index_error D "animal_id"); simpl; [eauto|].
  destruct (index_error D "created_timestamp"); simpl; [eauto|].
  destruct (index_error D "last_modified_timestamp"); simpl; eauto.
Qed.


(** X19: index creation is best effort: whether the constructor returns,
    what it returns and what it raises are the same with and without
    [ensure_indexes]. *)
Theorem index_creation_is_best_effort uri database collection audits_collection t s :
  (__init__ D uri database collection audits_collection true t s).1
    = (__init__ D uri database collection audits_collection false t s).1.
Proof.
  unfold __init__, attempt, and_then, call.
  destruct (client_error D _ _); [done|].
  destruct (ping_error D _); [done|]. cbv beta iota zeta.
  match goal with |- context [_ensure_indexes D ?self ?ss] =>
    destruct (ensure_indexes_returns self ss) as (s2 & -> & _) end.
  done.
Qed.

(** X20: closing never raises, whatever the driver does.  [close] calls
    [client.close()] once and says nothing; [close_connection] of the first
    version calls it once and prints one line, the success message or the
    error. *)
Theorem closing_never_raises self s :
  (∃ s', close D self s = (Return tt, s') ∧
     s_logged s' = s_logged s ∧ s_printed s' = s_printed s ∧
     s_calls s' = s_calls s ++ [CallClose (self_client self)]) ∧
  (∃ line,
     close_connection D self s =
       (Return tt, mkSession (s_logged s) (s_printed s ++ [line])
                     (s_calls s ++ [CallClose (self_client self)])) ∧
     line = match close_error D with
            | None => "Database connection closed successfully"
            | Some e => "Error closing database connection: " +:+ str_exn e
            end).
Proof.
  split.
  - unfold close, attempt, call, done_with. destruct (close_error D); eauto.
  - unfold close_connection, attempt, and_then, call, say.
    destruct (close_error D); eauto.
Qed.

End LifecycleProperties.

(** ** [get_collection_stats] of the first version *)

Section OriginalStatsProperties.
Context `{C : Collaborator}.
Context (collstats : string → Outcome Doc).
Import OriginalStats.

(** X22: [get_collection_stats] never raises and stores nothing.  A
    failure of either call is printed and answered with [None]; otherwise
    the document count is the number of stored records and size and index
    count are those the server reports for the collection named [animals],
    or [Unknown]. *)
Theorem get_collection_stats_never_raises w :
  ∃ r w',
    get_collection_stats collstats w = (Return r, w') ∧
    collection w' = collection w ∧
    match collstats "animals" with
    | Raise e =>
        r = None ∧
        printed w' = printed w ++ ["Error retrieving collection stats: " +:+ str_exn e]
    | Return stats =>
        if reachable (collection w)
        then r = Some {[ "document_count" := VInt (Z.of_nat (length (docs (collection w))));
                         "collection_size" := default (VStr "Unknown") (stats !! "size");
                         "index_count" := default (VStr "Unknown") (stats !! "nindexes") ]} ∧
             printed w' = printed w
        else r = None ∧
             printed w' = printed w ++
               ["Error retrieving collection stats: " +:+ str_exn Mongo.server_down]
    end.
Proof.
  unfold get_collection_stats, try_except, database_command_collstats.
  rewrite run_bind.
  destruct (collstats "animals") as [stats|e].
  - unfold Mongo.count_documents, bind, send, modify, gets, ret, raise, print. simpl.
    destruct (reachable (collection w)); simpl.
    + rewrite filter_matches_empty. eexists _, _. split; [reflexivity|]. done.
    + eexists _, _. split; [reflexivity|]. done.
  - unfold bind, print, modify, ret. simpl. eexists _, _. split; [reflexivity|]. done.
Qed.
End OriginalStatsProperties.

(** ** The first version's methods *)

Section OriginalMethods.
Context `{C : Collaborator}.
Import Mongo.

Lemma plain_wrapped {A} op (m : Py A) : raises_only is_plain_exception (Original.wrapped op m).
Proof.
  intros w e w'. unfold Original.wrapped, try_except.
  destruct (m w) as [[a|e1] w1]; [done|]. intros [= <- <-]. by eexists.
Qed.

Lemma plain_truthy o : raises_only is_plain_exception (Original.truthy o).
Proof. intros w e w'. by destruct o. Qed.

Ltac plain_step :=
  cbv beta zeta;
  lazymatch goal with
  | |- raises_only _ (Original.wrapped _ _) => apply plain_wrapped
  | |- raises_only _ (Original.truthy _) => apply plain_truthy
  | |- raises_only _ (bind _ _) => apply only_bind; [|intros ?]
  | |- raises_only _ (ret _) => apply only_ret
  | |- raises_only _ (raise _) => apply only_raise; by eexists
  | |- raises_only _ (getdict _) => apply only_gets
  | |- raises_only _ (if ?b then _ else _) => destruct b
  | |- raises_only _ (match ?x with _ => _ end) => destruct x
  end.

(** X23: the first version lets out plain [Exception]s only: a caller
    cannot tell a rejected argument from a database failure by the class of
    the exception. *)
Theorem original_raises_plain_exceptions_only :
  (∀ data, raises_only is_plain_exception (Original.create data)) ∧
  (∀ query projection n sf so,
     raises_only is_plain_exception (Original.read query projection n sf so)) ∧
  (∀ query new_values upsert,
     raises_only is_plain_exception (Original.update query new_values upsert)) ∧
  (∀ query confirm, raises_only is_plain_exception (Original.delete query confirm)).
Proof.
  split; [|split; [|split]].
  - intros data. unfold Original.create. repeat plain_step.
  - intros. unfold Original.read. repeat plain_step.
  - intros. unfold Original.update. repeat plain_step.
  - intros. unfold Original.delete. repeat plain_step.
Qed.

(** X24: in the first version the check of [query] sits inside [read]'s
    own [try], so its error goes through the handler and the message
    carries the prefix twice; nothing is sent. *)
Theorem original_read_bad_query_message w query projection n sf so :
  query ≠ PyNone → (∀ l, query ≠ PyDict l) →
  Original.read query projection n sf so w =
    (Raise (Exception
       "Read operation failed: Read operation failed: 'query' parameter must be a dictionary"),
     w).
Proof.
  intros Hnone Hd. unfold Original.read, Original.wrapped, try_except.
  rewrite run_bind.
  destruct query as [| | | | |l]; try done. by destruct (Hd l).
Qed.

(** X25: in the first version a projection that is not a dict, or is an
    empty dict, is dropped: the call is the call without projection. *)
Theorem original_read_ignores_unusable_projection w query projection n sf so :
  (∀ p, projection = PyDict p → heap w !! p = Some ∅) →
  Original.read query projection n sf so w = Original.read query PyNone n sf so w.
Proof.
  intros Hp.
  destruct projection as [| | | | |p];
    try (by apply original_read_ignores_non_dict_projection).
  - specialize (Hp p eq_refl).
    unfold Original.read, Original.wrapped, try_except. rewrite !run_bind.
    destruct (match query with
              | PyNone => ret ∅
              | PyDict l => getdict l
              | _ => raise (Exception
                              "Read operation failed: 'query' parameter must be a dictionary")
              end w) as [[q|e] w1] eqn:Hq; [|done].
    assert (w1 = w) as ->.
    { destruct query; try done; by injection Hq as <- <-. }
    rewrite !run_bind. unfold Original.truthy.
    rewrite run_bind, (run_getdict _ _ _ Hp), dict_truthy_empty. done.
Qed.

(** X26: the first version's [create] and [update] stamp the dict they are
    given, with local time (the clock reading plus the zone offset): after a
    call that returns, the caller's record carries [created_timestamp], and
    the caller's [new_values] carries [last_modified_timestamp]. *)
Theorem original_arguments_mutated_in_place w :
  (∀ l d b w',
     heap w !! l = Some d →
     Original.create (PyDict l) w = (Return b, w') →
     ∃ d', heap w' !! l = Some d' ∧
       d' !! "created_timestamp" = Some (VTime (wall w (ticks w) + utc_offset w)) ∧
       ∀ k, k ≠ "_id" → k ≠ "created_timestamp" → d' !! k = d !! k) ∧
  (∀ lq lnv q nv upsert out w',
     heap w !! lq = Some q →
     heap w !! lnv = Some nv →
     Original.update (PyDict lq) (PyDict lnv) upsert w = (Return out, w') →
     heap w' !! lnv =
       Some (<["last_modified_timestamp" := VTime (wall w (ticks w) + utc_offset w)]> nv)).
Proof.
  split.
  - intros l d b w' E Hc. exact (original_create_mutates w l d b w' E Hc).
  - intros lq lnv q nv upsert out w' Eq Env Hu.
    exact (original_update_mutates w lq lnv q nv upsert out w' Eq Env Hu).
Qed.

(** X27: the first version's [create] refuses a non-empty dict that lacks
    a required field with a plain [Exception] whose message lists the
    missing fields as a Python list; nothing is sent and the dict is not
    stamped. *)
Theorem original_create_missing_fields w l d :
  heap w !! l = Some d →
  d ≠ ∅ →
  AnimalShelter.missing_fields d AnimalShelter.required_fields ≠ [] →
  Original.create (PyDict l) w =
    (Raise (Exception
       ("Create operation failed: Missing required fields: " +:+
        Original.repr_list (AnimalShelter.missing_fields d AnimalShelter.required_fields))),
     w).
Proof.
  intros E Hne Hm. unfold Original.create, Original.truthy.
  rewrite run_bind, run_bind, (run_getdict _ _ _ E). unfold ret at 1.
  rewrite (dict_truthy_nonempty _ Hne). cbn [negb].
  rewrite run_bind, (run_getdict _ _ _ E).
  unfold AnimalShelter.missing_fields, AnimalShelter.required_fields in *.
  by destruct (filter _ _).
Qed.




End OriginalMethods.

(** ** Instances on the reference collaborator

    Each property above that has a premise, at a concrete world. *)

#[local] Existing Instance reference_collaborator.
Import Mongo.


Lemma validation_messages_witness :
  (AnimalShelter.update (PyDict 2) (PyDict 1) true None (world_with [] true)).1
    = Raise (ValueError "new_values must be a non-empty dict").
Proof.
  apply (proj1 (proj2 (proj2 (proj2 (proj2 (proj2
           (validation_messages (world_with [] true)))))))
           2 {[ "animal_type" := VStr "Dog" ]} 1 true None).
  - reflexivity.
  - vm_compute. discriminate.
  - reflexivity.
Defined.



Lemma delete_then_read_finds_nothing_witness :
  returned [imported]
    ((AnimalShelter.delete (PyDict 2) None true >>
      AnimalShelter.read (PyDict 2) PyNone 0 None 1) (world_with [imported; stamped] true))
    = [].
Proof.
  apply (delete_then_read_finds_nothing (world_with [imported; stamped] true) 2
           {[ "animal_type" := VStr "Dog" ]} None true PyNone 0%Z None 1%Z _
           ((AnimalShelter.delete (PyDict 2) None true >>
             AnimalShelter.read (PyDict 2) PyNone 0 None 1)
              (world_with [imported; stamped] true)).2 eq_refl).
  vm_compute. reflexivity.
Defined.


Lemma update_reports_counts_witness :
  let w := world_with [imported; stamped] true in
  let r := AnimalShelter.update (PyDict 2) (PyDict 3) false (Some "vet") w in
  let nv' : Doc :=
    <["last_modified_timestamp" := VTime (wall w (ticks w))]> {[ "breed" := VStr "Hound" ]} in
  let q' : Doc := if decide (2 = 3) then nv' else {[ "animal_type" := VStr "Dog" ]} in
  let hit := filter (λ d, matches q' d) (docs (collection w)) in
  returned ∅ r =
    {[ "ok" := VBool true;
       "matched" := VInt (Z.of_nat (length hit));
       "modified" := VInt (Z.of_nat (length (filter (λ d, apply_set nv' d ≠ d) hit)));
       "upserted_id" := VNone ]} ∧
  length (filter (λ d, apply_set nv' d ≠ d) hit) ≤ length hit ∧
  length (docs (collection r.2)) = length (docs (collection w)).
Proof.
  intros w r nv' q' hit.
  apply (update_reports_counts w 2 3 {[ "animal_type" := VStr "Dog" ]}
           {[ "breed" := VStr "Hound" ]} false (Some "vet") (returned ∅ r) r.2
           eq_refl eq_refl).
  - vm_compute. reflexivity.
  - by left.
Defined.

Lemma update_upsert_inserts_one_witness :
  let w := world_with [imported] true in
  let r := AnimalShelter.update (PyDict 4) (PyDict 3) true None w in
  let now := wall w (ticks w) in
  let nv' : Doc := <["last_modified_timestamp" := VTime now]> {[ "breed" := VStr "Hound" ]} in
  let q' : Doc := if decide (4 = 3) then nv' else {[ "animal_id" := VStr "A9" ]} in
  ∃ id,
    let new := <["_id" := id]> (apply_set nv' (upsert_seed q')) in
    docs (collection r.2) = docs (collection w) ++ [new] ∧
    id_taken id (docs (collection w)) = false ∧
    new !! "last_modified_timestamp" = Some (VTime now) ∧
    (∀ k v, k ≠ "_id" → field_root k = k → nv' !! k = Some v → new !! k = Some v) ∧
    (∀ k, k ≠ "_id" → (∀ k', is_Some (nv' !! k') → field_root k' ≠ k) →
          new !! k = upsert_seed q' !! k) ∧
    returned ∅ r =
      {[ "ok" := VBool true; "matched" := VInt 0; "modified" := VInt 0;
         "upserted_id" := if py_truthy id then VStr (py_str id) else VNone ]}.
Proof.
  intros w r now nv' q'.
  apply (update_upsert_inserts_one w 4 3 {[ "animal_id" := VStr "A9" ]}
           {[ "breed" := VStr "Hound" ]} None (returned ∅ r) r.2 eq_refl eq_refl).
  - vm_compute. reflexivity.
  - intros d ->%list_elem_of_singleton. vm_compute. reflexivity.
Defined.

Lemma unacknowledged_writes_never_return_witness :
  let w := world_unacknowledged [imported; stamped] in
  let q : Doc := {[ "animal_type" := VStr "Dog" ]} in
  ∃ w',
    AnimalShelter.delete (PyDict 2) None true w
      = (Raise (unacknowledged "deleted_count"), w') ∧
    docs (collection w') = filter (λ d, ¬ matches q d) (docs (collection w)) ∧
    audits w' = audits w.
Proof.
  intros w q.
  apply (proj2 (proj2 (unacknowledged_writes_never_return w)) 2 q None true).
  - reflexivity.
  - vm_compute. discriminate.
  - reflexivity.
  - reflexivity.
Defined.

Lemma failed_create_still_stamps_witness :
  let w := world_down [imported] in
  ∃ w' d',
    AnimalShelter.create (PyDict 0) None w = (Raise server_down, w') ∧
    collection w' = collection w ∧
    audits w' = audits w ∧
    heap w' !! 0 = Some d' ∧
    d' !! "created_timestamp" = Some (VTime (wall w (ticks w))) ∧
    is_Some (d' !! "_id") ∧
    ∀ k, k ≠ "_id" → k ≠ "created_timestamp" → d' !! k = rex !! k.
Proof.
  intros w.
  apply (failed_create_still_stamps w 0 rex None).
  - reflexivity.
  - vm_compute. discriminate.
  - vm_compute. reflexivity.
  - reflexivity.
Defined.


Lemma read_and_stats_only_ask_witness :
  let w := world_with [imported; stamped] true in
  only_asked w (AnimalShelter.stats w).2.
Proof.
  intros w.
  apply (proj2 (read_and_stats_only_ask w) (AnimalShelter.stats w).1).
  vm_compute. reflexivity.
Defined.

Lemma read_sorts_then_limits_witness :
  let w := world_with [imported; stamped] true in
  let r := AnimalShelter.read PyNone PyNone 1 (Some "animal_id") (-1) w in
  ∃ q hit rest,
    filter_of w PyNone = Some q ∧
    returned [] r = projected (projection_of w PyNone) hit ∧
    ((-1)%Z = 1%Z ∨ (-1)%Z = (-1)%Z) ∧
    hit ++ rest ≡ₚ filter (λ d, matches q d) (docs (collection w)) ∧
    StronglySorted (if decide ((-1)%Z = 1%Z) then key_asc "animal_id"
                    else key_desc "animal_id") (hit ++ rest) ∧
    ((1 ≤ 0)%Z → rest = []) ∧
    ((0 < 1)%Z →
       length (returned [] r) =
         min (Z.to_nat 1) (length (filter (λ d, matches q d) (docs (collection w))))).
Proof.
  intros w r.
  apply (read_sorts_then_limits w PyNone PyNone 1%Z "animal_id" (-1)%Z (returned [] r) r.2).
  - discriminate.
  - vm_compute. reflexivity.
Defined.

Lemma read_unsorted_unlimited_witness :
  let w := world_with [imported; stamped] true in
  let r := AnimalShelter.read (PyDict 2) PyNone (-3) (Some "") 1 w in
  ∃ q, filter_of w (PyDict 2) = Some q ∧
    returned [] r = projected (projection_of w PyNone)
                      (filter (λ d, matches q d) (docs (collection w))).
Proof.
  intros w r.
  apply (read_unsorted_unlimited w (PyDict 2) PyNone (-3)%Z (Some "") 1%Z (returned [] r) r.2).
  - lia.
  - by right.
  - vm_compute. reflexivity.
Defined.

Lemma audit_trail_records_each_success_witness :
  let w := world_with [] true in
  let r := AnimalShelter.create (PyDict 0) (Some "intake") w in
  entries (audits r.2) = entries (audits w) ++
    [mkAuditEntry "CREATE"
       {[ "actor" := AnimalShelter.opt_str (Some "intake");
          "inserted_id" := returned ∅ r !!! "inserted_id" ]} (wall w (S (ticks w)))].
Proof.
  intros w r.
  apply (proj1 (audit_trail_records_each_success w eq_refl) 0 rex (Some "intake")
           (returned ∅ r) r.2 eq_refl).
  vm_compute. reflexivity.
Defined.

Lemma original_raises_plain_exceptions_only_witness :
  is_plain_exception (Exception "Read operation failed: ServerSelectionTimeoutError").
Proof.
  apply (proj1 (proj2 original_raises_plain_exceptions_only) PyNone PyNone 0%Z None 1%Z
           (world_down [imported]) _
           (Original.read PyNone PyNone 0 None 1 (world_down [imported])).2).
  vm_compute. reflexivity.
Defined.

Lemma original_read_bad_query_message_witness :
  Original.read (PyStr "Dog") PyNone 0 None 1 (world_with [imported] true) =
    (Raise (Exception
       "Read operation failed: Read operation failed: 'query' parameter must be a dictionary"),
     world_with [imported] true).
Proof.
  apply (original_read_bad_query_message (world_with [imported] true) (PyStr "Dog")
           PyNone 0%Z None 1%Z).
  - discriminate.
  - intros l. discriminate.
Defined.

Lemma original_read_ignores_unusable_projection_witness :
  let w := world_with [imported; stamped] true in
  Original.read (PyDict 2) (PyDict 1) 0 None 1 w = Original.read (PyDict 2) PyNone 0 None 1 w.
Proof.
  intros w.
  apply (original_read_ignores_unusable_projection w (PyDict 2) (PyDict 1) 0%Z None 1%Z).
  intros p [= <-]. reflexivity.
Defined.

Lemma original_arguments_mutated_in_place_witness :
  let w := world_with [] true in
  let r := Original.create (PyDict 0) w in
  ∃ d', heap r.2 !! 0 = Some d' ∧
    d' !! "created_timestamp" = Some (VTime (wall w (ticks w) + utc_offset w)) ∧
    ∀ k, k ≠ "_id" → k ≠ "created_timestamp" → d' !! k = rex !! k.
Proof.
  intros w r.
  apply (proj1 (original_arguments_mutated_in_place w) 0 rex (returned false r) r.2 eq_refl).
  vm_compute. reflexivity.
Defined.

Lemma original_create_missing_fields_witness :
  let w := world_with [] true in
  let d : Doc := {[ "animal_id" := VStr "A9" ]} in
  Original.create (PyDict 4) w =
    (Raise (Exception
       ("Create operation failed: Missing required fields: " +:+
        Original.repr_list (AnimalShelter.missing_fields d AnimalShelter.required_fields))),
     w).
Proof.
  intros w d.
  apply (original_create_missing_fields w 4 d).
  - reflexivity.
  - vm_compute. discriminate.
  - vm_compute. discriminate.
Defined.


Lemma original_delete_empty_query_witness :
  Original.delete (PyDict 1) false (world_with [imported; stamped] true) =
    (Raise (Exception "Delete operation failed: 'query' parameter is empty or None"),
     world_with [imported; stamped] true).
Proof.
  apply (original_delete_empty_query (world_with [imported; stamped] true) 1 false).
  reflexivity.
Defined.

Section LifecycleInstances.
Import Lifecycle.

Lemma ensure_indexes_stops_at_first_failure_witness :
  let self := mkShelter "mongodb://localhost:27017/" "AAC" "animals" (Some "audits") in
  _ensure_indexes no_index_rights self new_session =
    (Return tt,
     mkSession [(WARNING, "index_creation_failed: OperationFailure")] []
       [CallCreateIndex "animals" "animal_id"; CallCreateIndex "animals" "created_timestamp"]).
Proof.
  intros self.
  apply (proj2 (ensure_indexes_stops_at_first_failure no_index_rights self new_session)
           ["animal_id"] "created_timestamp" ["last_modified_timestamp"]
           (PyMongoError "OperationFailure")).
  - reflexivity.
  - repeat constructor.
  - reflexivity.
Defined.


End LifecycleInstances.
